(** * The Tuya integration entry points (homeassistant/components/tuya/__init__.py)

    A shallow embedding of the adapter that binds a Home Assistant config
    entry to a [tuya_sharing.Manager], mirrors the vendor's device map into
    the host device registry and relays listener callbacks.

    The Python code mutates shared objects ([hass.data], the device
    registry, [Manager] instances reachable both from the stored session and
    from the device listener).  The embedding therefore threads one explicit
    store, [HomeAssistant], through a state-and-exception monad: a raised
    exception keeps every side effect performed before it, as in Python. *)

From stdpp Require Import base option list strings functions gmap fin_maps fin_sets.

#[local] Open Scope string_scope.
#[local] Open Scope list_scope.
#[local] Set Warnings "-clear-no-such-hyp".

(** ** Python values held in config-entry data and device status *)

#[warnings="-register-all"]
Inductive pyval : Type :=
| PNone
| PStr (s : string)
| PInt (z : Z)
| PBool (b : bool)
| PDict (items : list (string * pyval)).

(** ** Exceptions *)

Inductive exn : Type :=
| ConfigEntryAuthFailed (msg : string)
| KeyError (key : string)
| IndexError
| ExternalError (origin : string).

Inductive result (A : Type) : Type :=
| Ok (a : A)
| Raise (e : exn).
Arguments Ok {A} a.
Arguments Raise {A} e.

(** Modelled from the spec: the constants imported from [.const] (and
    [__version__] from [homeassistant.const]).  [const.py] is not among the
    sources at hand and the spec gives no values, so the constants are kept
    abstract and every result below holds for any choice of them. *)

Class Const := {
  DOMAIN : string;
  CONF_APP_TYPE : string;
  CONF_USER_CODE : string;
  CONF_TERMINAL_ID : string;
  CONF_ENDPOINT : string;
  CONF_TOKEN_INFO : string;
  TUYA_CLIENT_ID : string;
  TUYA_DISCOVERY_NEW : string;
  TUYA_HA_SIGNAL_UPDATE_ENTITY : string;
  PLATFORMS : list string;
  __version__ : string
}.

(** ** Vendor objects ([tuya_sharing]) *)

Module CustomerDevice.
Record t : Type := {
  id : string;
  name : string;
  product_name : string;
  status : list (string * pyval)
}.
End CustomerDevice.

(** [TokenListener] keeps a reference to the config entry; an entry object
    is addressed by its [entry_id]. *)
Record TokenListener : Type := { tl_entry : string }.

(** [DeviceListener] keeps a reference to its manager. *)
Record DeviceListener : Type := { dl_manager : nat }.

Module Manager.
(** The attributes of [tuya_sharing.Manager] this module reads or that its
    methods change.  [mq] is [None] until the push channel is opened. *)
Record t : Type := {
  client_id : string;
  user_code : pyval;
  terminal_id : pyval;
  endpoint : pyval;
  token_info : pyval;
  token_listener : TokenListener;
  device_map : gmap string CustomerDevice.t;
  device_listeners : gset nat;
  mq : option unit
}.

Definition blank : t :=
  {| client_id := ""; user_code := PNone; terminal_id := PNone;
     endpoint := PNone; token_info := PNone;
     token_listener := {| tl_entry := "" |};
     device_map := ∅; device_listeners := ∅; mq := None |}.

Definition with_device_map (dm : gmap string CustomerDevice.t) (m : t) : t :=
  {| client_id := client_id m; user_code := user_code m;
     terminal_id := terminal_id m; endpoint := endpoint m;
     token_info := token_info m; token_listener := token_listener m;
     device_map := dm; device_listeners := device_listeners m; mq := mq m |}.

Definition with_device_listeners (ls : gset nat) (m : t) : t :=
  {| client_id := client_id m; user_code := user_code m;
     terminal_id := terminal_id m; endpoint := endpoint m;
     token_info := token_info m; token_listener := token_listener m;
     device_map := device_map m; device_listeners := ls; mq := mq m |}.

Definition with_mq (q : option unit) (m : t) : t :=
  {| client_id := client_id m; user_code := user_code m;
     terminal_id := terminal_id m; endpoint := endpoint m;
     token_info := token_info m; token_listener := token_listener m;
     device_map := device_map m; device_listeners := device_listeners m;
     mq := q |}.
End Manager.

(** ** [HomeAssistantTuyaData]: the session stored per entry id *)

Record HomeAssistantTuyaData : Type := {
  manager : nat;
  listener : nat
}.

(** ** Host device registry ([homeassistant.helpers.device_registry]) *)

Module dr.
Record DeviceEntry : Type := {
  identifiers : gset (string * string);
  config_entries : gset string;
  manufacturer : option string;
  name : option string;
  model : option string
}.

Definition new_entry : DeviceEntry :=
  {| identifiers := ∅; config_entries := ∅;
     manufacturer := None; name := None; model := None |}.

(** The registry's [devices] dictionary, keyed by the entry's internal
    id. *)
Abbreviation devices := (gmap nat DeviceEntry).

Definition matches (idents : gset (string * string)) (d : DeviceEntry) : Prop :=
  identifiers d ∩ idents ≠ ∅.

#[global] Instance matches_dec idents d : Decision (matches idents d).
Proof. unfold matches. apply _. Defined.

(** Modelled from the spec: lookup-by-identifiers of the host registry
    returns an entry sharing an identifier with the query, if there is
    one. *)
Definition async_get_device (reg : devices) (idents : gset (string * string))
  : option (nat * DeviceEntry) :=
  head (filter (λ kd : nat * DeviceEntry, matches idents kd.2) (map_to_list reg)).

(** Modelled from the spec: remove-by-internal-id of the host registry. *)
Definition async_remove_device (dev_id : nat) (reg : devices) : devices :=
  delete dev_id reg.

(** Modelled from the spec: get-or-create(identifiers, manufacturer, name,
    model) of the host registry.  An entry found by identifier is updated in
    place, and otherwise a new entry with an unused internal id is added;
    either way the config entry and the identifiers are merged in and the
    descriptive fields are set. *)
Definition async_get_or_create (reg : devices) (config_entry_id : string)
    (idents : gset (string * string)) (manufacturer' name' model' : string)
  : devices :=
  let kd := match async_get_device reg idents with
            | Some kd => kd
            | None => (fresh (dom reg), new_entry)
            end in
  <[kd.1 := {| identifiers := identifiers kd.2 ∪ idents;
               config_entries := config_entries kd.2 ∪ {[config_entry_id]};
               manufacturer := Some manufacturer';
               name := Some name';
               model := Some model' |}]> reg.
End dr.

(** ** Calls made to collaborators

    Every call that leaves this module (vendor SDK, host services, logger)
    is appended to a trace, oldest first, so that the order of calls can be
    stated. *)

Inductive event : Type :=
| LoggerDebug (fmt : string)
| ManagerInit (m : nat) (client_id : string)
    (user_code terminal_id endpoint token_info : pyval) (tl : TokenListener)
| AddDeviceListener (m l : nat)
| RemoveDeviceListener (m l : nat)
| GetIntegration (domain : string)
| ReportVersion (m : nat) (ha_version tuya_version sharing_sdk : string)
| UpdateDeviceCache (m : nat)
| ForwardEntrySetups (entry : string) (platforms : list string)
| RefreshMq (m : nat)
| UnloadPlatforms (entry : string) (platforms : list string)
| MqStop (m : nat)
| Unload (m : nat)
| DispatcherSend (signal : string) (args : list (list string))
| AddJob (l : nat) (device_id : string)
| UpdateEntry (entry : string) (data : gmap string pyval).

(** A job queued with [hass.add_job(self.async_remove_device, device_id)]. *)
Record job : Type := { job_listener : nat; job_device_id : string }.

(** ** The store *)

Record HomeAssistant : Type := {
  (** [hass.data]: namespace ↦ (entry id ↦ session) *)
  data : gmap string (gmap string HomeAssistantTuyaData);
  (** the [data] attribute of each config-entry object, by entry id *)
  entries : string → gmap string pyval;
  (** [dr.async_get(hass).devices] *)
  device_registry : dr.devices;
  (** the [Manager] objects, by reference, and the next unused reference *)
  managers : nat → Manager.t;
  next_manager : nat;
  (** the [DeviceListener] objects, by reference *)
  listeners : nat → DeviceListener;
  next_listener : nat;
  (** jobs queued on the event loop, oldest first *)
  jobs : list job;
  trace : list event
}.

Definition set_data (x : gmap string (gmap string HomeAssistantTuyaData))
    (h : HomeAssistant) : HomeAssistant :=
  {| data := x; entries := entries h; device_registry := device_registry h;
     managers := managers h; next_manager := next_manager h;
     listeners := listeners h; next_listener := next_listener h;
     jobs := jobs h; trace := trace h |}.

Definition set_entries (x : string → gmap string pyval)
    (h : HomeAssistant) : HomeAssistant :=
  {| data := data h; entries := x; device_registry := device_registry h;
     managers := managers h; next_manager := next_manager h;
     listeners := listeners h; next_listener := next_listener h;
     jobs := jobs h; trace := trace h |}.

Definition set_device_registry (x : dr.devices)
    (h : HomeAssistant) : HomeAssistant :=
  {| data := data h; entries := entries h; device_registry := x;
     managers := managers h; next_manager := next_manager h;
     listeners := listeners h; next_listener := next_listener h;
     jobs := jobs h; trace := trace h |}.

Definition set_managers (x : nat → Manager.t) (n : nat)
    (h : HomeAssistant) : HomeAssistant :=
  {| data := data h; entries := entries h; device_registry := device_registry h;
     managers := x; next_manager := n;
     listeners := listeners h; next_listener := next_listener h;
     jobs := jobs h; trace := trace h |}.

Definition set_listeners (x : nat → DeviceListener) (n : nat)
    (h : HomeAssistant) : HomeAssistant :=
  {| data := data h; entries := entries h; device_registry := device_registry h;
     managers := managers h; next_manager := next_manager h;
     listeners := x; next_listener := n;
     jobs := jobs h; trace := trace h |}.

Definition set_jobs (x : list job) (h : HomeAssistant) : HomeAssistant :=
  {| data := data h; entries := entries h; device_registry := device_registry h;
     managers := managers h; next_manager := next_manager h;
     listeners := listeners h; next_listener := next_listener h;
     jobs := x; trace := trace h |}.

Definition set_trace (x : list event) (h : HomeAssistant) : HomeAssistant :=
  {| data := data h; entries := entries h; device_registry := device_registry h;
     managers := managers h; next_manager := next_manager h;
     listeners := listeners h; next_listener := next_listener h;
     jobs := jobs h; trace := x |}.

(** ** State-and-exception monad *)

Definition M (A : Type) : Type := HomeAssistant → result A * HomeAssistant.

#[global] Instance M_ret : MRet M := λ A a h, (Ok a, h).

#[global] Instance M_bind : MBind M := λ A B k c h,
  match c h with
  | (Ok a, h') => k a h'
  | (Raise e, h') => (Raise e, h')
  end.

Definition raise {A} (e : exn) : M A := λ h, (Raise e, h).
Definition get : M HomeAssistant := λ h, (Ok h, h).
Definition modify (f : HomeAssistant → HomeAssistant) : M unit := λ h, (Ok (), f h).
Definition emit (e : event) : M unit := modify (λ h, set_trace (trace h ++ [e]) h).

(** A Python [for] loop whose body neither breaks nor returns. *)
Fixpoint for_ {A} (xs : list A) (body : A → M unit) : M unit :=
  match xs with
  | [] => mret ()
  | x :: xs' => body x;; for_ xs' body
  end.

(** [d[key]] on a dictionary. *)
Definition getitem {V} (d : gmap string V) (key : string) : M V :=
  match d !! key with
  | Some v => mret v
  | None => raise (KeyError key)
  end.

(** The outcome of a call into a collaborator that returns nothing: it
    returns ([None]) or raises. *)
Definition outcome (o : option exn) : M unit :=
  match o with
  | None => mret ()
  | Some e => raise e
  end.

Definition lift {A} (r : result A) : M A := λ h, (r, h).

(** ** Python string operations used by [report_version] *)

(** [pat in s] *)
Fixpoint str_contains (pat s : string) : bool :=
  String.prefix pat s ||
  match s with
  | EmptyString => false
  | String _ s' => str_contains pat s'
  end.

(** [s.split(sep)] for a non-empty [sep]: [skip] counts the characters of
    a separator still to be dropped, [cur] is the piece being read. *)
Fixpoint split_from (sep : string) (skip : nat) (cur s : string) : list string :=
  match s with
  | EmptyString => [cur]
  | String c s' =>
    match skip with
    | S k => split_from sep k cur s'
    | O =>
      if String.prefix sep s
      then cur :: split_from sep (String.length sep - 1) "" s'
      else split_from sep 0 (cur +:+ String c "") s'
    end
  end.

Definition str_split (sep s : string) : list string := split_from sep 0 "" s.

(** Iterating over a string yields its characters as one-character
    strings. *)
Fixpoint chars (s : string) : list string :=
  match s with
  | EmptyString => []
  | String c s' => String c "" :: chars s'
  end.

(** ** Outcomes of the calls that leave the module

    What the vendor backend and the host services answer is not decided by
    this module.  One [Env] fixes the answer of each such call during one
    entry point: a call returns, or raises the given exception. *)

Record Manifest : Type := {
  version : option string;
  requirements : option (list string)
}.

Record Env : Type := {
  integration : exn + Manifest;
  report_version_raises : option exn;
  refreshed_device_map : exn + gmap string CustomerDevice.t;
  forward_entry_setups_raises : option exn;
  refresh_mq_raises : option exn;
  unload_platforms_result : exn + bool;
  mq_stop_raises : option exn;
  unload_raises : option exn
}.

(** ** Vendor session API (spec section 6), as far as this module calls it *)

Module sdk.

(** Modelled from the spec: Session constructor(clientId, userCode,
    terminalId, endpoint, tokenBlob, tokenListener).  The new object gets a
    reference nobody holds yet, an empty device map, no listeners and no
    push channel. *)
Definition Manager_init (client_id : string)
    (user_code terminal_id endpoint token_info : pyval)
    (token_listener : TokenListener) : M nat :=
  h ← get;
  let r := next_manager h in
  modify (set_managers
            (<[r := {| Manager.client_id := client_id;
                       Manager.user_code := user_code;
                       Manager.terminal_id := terminal_id;
                       Manager.endpoint := endpoint;
                       Manager.token_info := token_info;
                       Manager.token_listener := token_listener;
                       Manager.device_map := ∅;
                       Manager.device_listeners := ∅;
                       Manager.mq := None |}]> (managers h)) (S r));;
  emit (ManagerInit r client_id user_code terminal_id endpoint token_info token_listener);;
  mret r.

Definition update_manager (m : nat) (f : Manager.t → Manager.t) : M unit :=
  modify (λ h, set_managers (<[m := f (managers h m)]> (managers h)) (next_manager h) h).

(** Modelled from the spec: SessionHandle.addDeviceListener(listener). *)
Definition add_device_listener (m l : nat) : M unit :=
  emit (AddDeviceListener m l);;
  update_manager m (λ o, Manager.with_device_listeners (Manager.device_listeners o ∪ {[l]}) o).

(** Modelled from the spec: SessionHandle.removeDeviceListener(listener). *)
Definition remove_device_listener (m l : nat) : M unit :=
  emit (RemoveDeviceListener m l);;
  update_manager m (λ o, Manager.with_device_listeners (Manager.device_listeners o ∖ {[l]}) o).

(** Modelled from the spec: SessionHandle.reportVersion(hostVersion,
    integrationVersion, sdkVersion), a blocking call to the vendor backend
    that returns or raises. *)
Definition report_version (env : Env) (m : nat)
    (ha_version tuya_version sharing_sdk : string) : M unit :=
  emit (ReportVersion m ha_version tuya_version sharing_sdk);;
  outcome (report_version_raises env).

(** Modelled from the spec: SessionHandle.updateDeviceCache() replaces the
    manager's device map by the vendor's current one, or raises. *)
Definition update_device_cache (env : Env) (m : nat) : M unit :=
  emit (UpdateDeviceCache m);;
  match refreshed_device_map env with
  | inl e => raise e
  | inr dm => update_manager m (Manager.with_device_map dm)
  end.

(** Modelled from the spec: SessionHandle.refreshPushChannel() opens the
    push channel, or raises. *)
Definition refresh_mq (env : Env) (m : nat) : M unit :=
  emit (RefreshMq m);;
  outcome (refresh_mq_raises env);;
  update_manager m (Manager.with_mq (Some ())).

(** Modelled from the spec: SessionHandle.stopPushChannel(), called as
    [manager.mq.stop()]. *)
Definition mq_stop (env : Env) (m : nat) : M unit :=
  emit (MqStop m);;
  outcome (mq_stop_raises env).

(** Modelled from the spec: SessionHandle.release(), called as
    [manager.unload]. *)
Definition unload (env : Env) (m : nat) : M unit :=
  emit (Unload m);;
  outcome (unload_raises env).

End sdk.

(** ** Host services (spec section 6), as far as this module calls them *)

Module host.

(** Modelled from the spec: [async_get_integration(hass, domain)] yields
    the integration, whose manifest is read, or raises. *)
Definition async_get_integration (env : Env) (domain : string) : M Manifest :=
  emit (GetIntegration domain);;
  match integration env with
  | inl e => raise e
  | inr mf => mret mf
  end.

(** Modelled from the spec: entity-platform forwarding, setup. *)
Definition async_forward_entry_setups (env : Env) (entry : string)
    (platforms : list string) : M unit :=
  emit (ForwardEntrySetups entry platforms);;
  outcome (forward_entry_setups_raises env).

(** Modelled from the spec: entity-platform forwarding, unload; answers
    whether the unload succeeded. *)
Definition async_unload_platforms (env : Env) (entry : string)
    (platforms : list string) : M bool :=
  emit (UnloadPlatforms entry platforms);;
  match unload_platforms_result env with
  | inl e => raise e
  | inr ok => mret ok
  end.

(** Modelled from the spec: config-entry update; the entry's data becomes
    the mapping given. *)
Definition async_update_entry (entry : string) (data' : gmap string pyval) : M unit :=
  emit (UpdateEntry entry data');;
  modify (λ h, set_entries (<[entry := data']> (entries h)) h).

(** Modelled from the spec: notification bus, send(topic, payload). *)
Definition dispatcher_send (signal : string) (args : list (list string)) : M unit :=
  emit (DispatcherSend signal args).

(** Modelled from the spec: task submission to the host's scheduler; the
    job runs later. *)
Definition add_job (l : nat) (device_id : string) : M unit :=
  emit (AddJob l device_id);;
  modify (λ h, set_jobs (jobs h ++ [{| job_listener := l; job_device_id := device_id |}]) h).

Definition device_registry_update (f : dr.devices → dr.devices) : M unit :=
  modify (λ h, set_device_registry (f (device_registry h)) h).

End host.

(** ** The module's own code *)

Section Tuya.
Context `{Const}.

(** [hass.data.setdefault(DOMAIN, {})] *)
Definition setdefault_domain : M unit :=
  modify (λ h, match data h !! DOMAIN with
               | Some _ => h
               | None => set_data (<[DOMAIN := ∅]> (data h)) h
               end).

(** [hass.data[DOMAIN][entry_id] = session] *)
Definition store_session (entry : string) (tuya : HomeAssistantTuyaData) : M unit :=
  h ← get;
  ns ← getitem (data h) DOMAIN;
  modify (set_data (<[DOMAIN := <[entry := tuya]> ns]> (data h))).

(** [DeviceListener.__init__] *)
Definition DeviceListener_init (manager' : nat) : M nat :=
  h ← get;
  let r := next_listener h in
  modify (set_listeners (<[r := {| dl_manager := manager' |}]> (listeners h)) (S r));;
  mret r.

(** The loop of [report_version] over the manifest's requirements: the
    last item naming the SDK decides, and an item without ["=="] has no
    second piece. *)
Fixpoint sharing_sdk_of (items : list string) (sharing_sdk : string) : result string :=
  match items with
  | [] => Ok sharing_sdk
  | item :: items' =>
    if str_contains "device-sharing-sdk" item
    then match str_split "==" item !! 1%nat with
         | Some v => sharing_sdk_of items' v
         | None => Raise IndexError
         end
    else sharing_sdk_of items' sharing_sdk
  end.

Definition report_version (env : Env) (manager' : nat) : M unit :=
  manifest ← host.async_get_integration env DOMAIN;
  let tuya_version := default "unknown" (version manifest) in
  let sdk_version := default (chars "unknown") (requirements manifest) in
  sharing_sdk ← lift (sharing_sdk_of sdk_version "");
  sdk.report_version env manager' __version__ tuya_version sharing_sdk.

(** The inner loop of [cleanup_device_registry]: some identifier of the
    entry is in this domain and names a device absent from the device
    map. *)
Definition stale (dm : gmap string CustomerDevice.t) (d : dr.DeviceEntry) : bool :=
  existsb (λ item : string * string,
             bool_decide (item.1 = DOMAIN) && bool_decide (dm !! item.2 = None))
          (elements (dr.identifiers d)).

Definition cleanup_device_registry (device_manager : nat) : M unit :=
  h ← get;
  for_ (map_to_list (device_registry h)) (λ kd,
    h' ← get;
    if stale (Manager.device_map (managers h' device_manager)) kd.2
    then host.device_registry_update (dr.async_remove_device kd.1)
    else mret ()).

Definition register_device (entry : string) (device : CustomerDevice.t) : M unit :=
  host.device_registry_update (λ reg,
    dr.async_get_or_create reg entry
      {[ (DOMAIN, CustomerDevice.id device) ]}
      "Tuya"
      (CustomerDevice.name device)
      (CustomerDevice.product_name device +:+ " (unsupported)")).

Definition async_setup_entry (env : Env) (entry : string) : M bool :=
  setdefault_domain;;
  h ← get;
  let entry_data := entries h entry in
  if bool_decide (is_Some (entry_data !! CONF_APP_TYPE))
  then raise (ConfigEntryAuthFailed "Authentication failed. Please re-authenticate.")
  else
    ns ← getitem (data h) DOMAIN;
    manager' ←
      match ns !! entry with
      | None =>
        let token_listener := {| tl_entry := entry |} in
        user_code ← getitem entry_data CONF_USER_CODE;
        terminal_id ← getitem entry_data CONF_TERMINAL_ID;
        endpoint ← getitem entry_data CONF_ENDPOINT;
        token_info ← getitem entry_data CONF_TOKEN_INFO;
        manager' ← sdk.Manager_init TUYA_CLIENT_ID user_code terminal_id
                      endpoint token_info token_listener;
        listener' ← DeviceListener_init manager';
        sdk.add_device_listener manager' listener';;
        store_session entry {| manager := manager'; listener := listener' |};;
        mret manager'
      | Some tuya => mret (manager tuya)
      end;
    report_version env manager';;
    sdk.update_device_cache env manager';;
    cleanup_device_registry manager';;
    h' ← get;
    for_ (map_to_list (Manager.device_map (managers h' manager')))
         (λ kd, register_device entry kd.2);;
    host.async_forward_entry_setups env entry PLATFORMS;;
    sdk.refresh_mq env manager';;
    mret true.

Definition async_unload_entry (env : Env) (entry : string) : M bool :=
  emit (LoggerDebug "unload entry id = %s");;
  host.async_unload_platforms env entry PLATFORMS.

Definition async_remove_entry (env : Env) (entry : string) : M unit :=
  emit (LoggerDebug "remove entry id = %s");;
  h ← get;
  ns ← getitem (data h) DOMAIN;
  tuya ← getitem ns entry;
  match Manager.mq (managers h (manager tuya)) with
  | Some _ => sdk.mq_stop env (manager tuya)
  | None => mret ()
  end;;
  sdk.remove_device_listener (manager tuya) (listener tuya);;
  sdk.unload env (manager tuya);;
  h1 ← get;
  ns1 ← getitem (data h1) DOMAIN;
  _ ← getitem ns1 entry;
  modify (set_data (<[DOMAIN := delete entry ns1]> (data h1)));;
  h2 ← get;
  ns2 ← getitem (data h2) DOMAIN;
  if decide (ns2 = ∅)
  then modify (set_data (delete DOMAIN (data h2)))
  else mret ().

(** *** [DeviceListener] *)

Definition update_device (self : nat) (device : CustomerDevice.t) : M unit :=
  h ← get;
  let manager' := managers h (dl_manager (listeners h self)) in
  _ ← getitem (Manager.device_map manager') (CustomerDevice.id device);
  emit (LoggerDebug "Received update for device %s: %s");;
  host.dispatcher_send
    (TUYA_HA_SIGNAL_UPDATE_ENTITY +:+ "_" +:+ CustomerDevice.id device) [].

Definition add_device (self : nat) (device : CustomerDevice.t) : M unit :=
  host.add_job self (CustomerDevice.id device);;
  host.dispatcher_send TUYA_DISCOVERY_NEW [[CustomerDevice.id device]].

Definition remove_device (self : nat) (device_id : string) : M unit :=
  host.add_job self device_id.

Definition async_remove_device (self : nat) (device_id : string) : M unit :=
  emit (LoggerDebug "Remove device: %s");;
  h ← get;
  match dr.async_get_device (device_registry h) {[ (DOMAIN, device_id) ]} with
  | Some device_entry =>
    host.device_registry_update (dr.async_remove_device device_entry.1)
  | None => mret ()
  end.

(** *** [TokenListener] *)

Definition update_token (self : TokenListener) (token_info : pyval) : M unit :=
  h ← get;
  let data' := <["token_info" := token_info]> (entries h (tl_entry self)) in
  emit (LoggerDebug "update token info : %s");;
  host.async_update_entry (tl_entry self) data'.

End Tuya.

(** ** Notions used to state the properties *)

Section Notions.
Context `{Const}.

(** The session stored for an entry id, if any: [hass.data[DOMAIN][entry]]. *)
Definition session_of (h : HomeAssistant) (entry : string) : option HomeAssistantTuyaData :=
  data h !! DOMAIN ≫= (.!! entry).

(** The device ids an entry carries under this domain. *)
Definition device_ids (d : dr.DeviceEntry) : gset string :=
  set_map snd (filter (λ item : string * string, item.1 = DOMAIN) (dr.identifiers d)).

(** The device ids some entry of the registry carries under this domain. *)
Definition registered_ids (reg : dr.devices) : gset string :=
  ⋃ (device_ids <$> (map_to_list reg).*2).

(** Names for two blocks of [async_setup_entry], so that intermediate
    states can be spoken of: the [if] branch that builds a session (source
    lines 53 to 68) and the steps that follow once the manager is at hand
    (lines 73 to 94).  [async_setup_entry_blocks] below shows the function
    is their composition. *)
Definition new_session (entry : string) (entry_data : gmap string pyval) : M nat :=
  let token_listener := {| tl_entry := entry |} in
  user_code ← getitem entry_data CONF_USER_CODE;
  terminal_id ← getitem entry_data CONF_TERMINAL_ID;
  endpoint ← getitem entry_data CONF_ENDPOINT;
  token_info ← getitem entry_data CONF_TOKEN_INFO;
  manager' ← sdk.Manager_init TUYA_CLIENT_ID user_code terminal_id
                endpoint token_info token_listener;
  listener' ← DeviceListener_init manager';
  sdk.add_device_listener manager' listener';;
  store_session entry {| manager := manager'; listener := listener' |};;
  mret manager'.

Definition setup_steps (env : Env) (entry : string) (manager' : nat) : M bool :=
  report_version env manager';;
  sdk.update_device_cache env manager';;
  cleanup_device_registry manager';;
  h' ← get;
  for_ (map_to_list (Manager.device_map (managers h' manager')))
       (λ kd, register_device entry kd.2);;
  host.async_forward_entry_setups env entry PLATFORMS;;
  sdk.refresh_mq env manager';;
  mret true.

(** One turn of each loop over the registry, as a change of the registry:
    the body of [cleanup_device_registry]'s loop for one registry item, and
    the [async_get_or_create] call made for one device. *)
Definition prune (dm : gmap string CustomerDevice.t) (reg : dr.devices)
    (kd : nat * dr.DeviceEntry) : dr.devices :=
  if stale dm kd.2 then dr.async_remove_device kd.1 reg else reg.

Definition register (entry : string) (reg : dr.devices)
    (device : CustomerDevice.t) : dr.devices :=
  dr.async_get_or_create reg entry
    {[ (DOMAIN, CustomerDevice.id device) ]}
    "Tuya"
    (CustomerDevice.name device)
    (CustomerDevice.product_name device +:+ " (unsupported)").

(** Entry points the host may call for an entry between its first setup
    and its removal. *)
Inductive lifecycle_call : Type :=
| Activate (env : Env)
| Deactivate (env : Env).

Definition call (entry : string) (h : HomeAssistant) (c : lifecycle_call) : HomeAssistant :=
  match c with
  | Activate env => (async_setup_entry env entry h).2
  | Deactivate env => (async_unload_entry env entry h).2
  end.

Definition calls (entry : string) (cs : list lifecycle_call) (h : HomeAssistant) : HomeAssistant :=
  foldl (call entry) h cs.

End Notions.

(** The vendor keys its device map by device id. *)
Definition keyed_by_id (dm : gmap string CustomerDevice.t) : Prop :=
  map_Forall (λ k d, CustomerDevice.id d = k) dm.

(** No identifier is carried by two entries of the host registry. *)
Definition unique_identifiers (reg : dr.devices) : Prop :=
  map_Forall (λ k1 d1,
    map_Forall (λ k2 d2, k1 ≠ k2 → dr.identifiers d1 ## dr.identifiers d2) reg) reg.

#[global] Instance unique_identifiers_dec reg : Decision (unique_identifiers reg).
Proof. unfold unique_identifiers. apply _. Defined.

(** Events by which a session comes into being. *)
Definition is_construction (e : event) : bool :=
  match e with
  | ManagerInit _ _ _ _ _ _ _ | AddDeviceListener _ _ => true
  | _ => false
  end.

(** Events of the setup steps that follow the version report. *)
Definition is_later_setup_step (e : event) : bool :=
  match e with
  | UpdateDeviceCache _ | ForwardEntrySetups _ _ | RefreshMq _ => true
  | _ => false
  end.

Definition is_log (e : event) : bool :=
  match e with
  | LoggerDebug _ => true
  | _ => false
  end.

Definition is_report_version (e : event) : bool :=
  match e with
  | ReportVersion _ _ _ _ => true
  | _ => false
  end.

(** The events appended to the trace between two stores. *)
Definition events_since (h h' : HomeAssistant) : list event :=
  drop (length (trace h)) (trace h').

(** The store after some more events. *)
Definition log_events (evs : list event) (h : HomeAssistant) : HomeAssistant :=
  set_trace (trace h ++ evs) h.

(** [c] only moves the store along [R], whatever it returns. *)
Definition frames {A} (R : relation HomeAssistant) (c : M A) : Prop :=
  ∀ h, R h (c h).2.

(** Nothing is constructed and no session is stored or dropped. *)
Definition sessions_kept (h h' : HomeAssistant) : Prop :=
  data h' = data h ∧
  next_manager h' = next_manager h ∧
  next_listener h' = next_listener h ∧
  listeners h' = listeners h ∧
  ∃ evs, trace h' = trace h ++ evs ∧ Forall (λ e, is_construction e = false) evs.

(** Identifiers that were unique in the registry stay so. *)
Definition keeps_unique (h h' : HomeAssistant) : Prop :=
  unique_identifiers (device_registry h) → unique_identifiers (device_registry h').

(** The registry is untouched and only events that satisfy [ok] are
    appended. *)
Definition quiet (ok : event → bool) (h h' : HomeAssistant) : Prop :=
  device_registry h' = device_registry h ∧
  ∃ evs, trace h' = trace h ++ evs ∧ Forall (λ e, ok e = true) evs.

(** What may happen before the version report is sent: no later setup
    step, no log line, no report. *)
Definition before_report (e : event) : bool :=
  negb (is_later_setup_step e) && negb (is_log e) && negb (is_report_version e).

(** ** Notions for the remaining properties *)

Section Scheduling.
Context `{Const}.

(** Modelled from the spec: the host's scheduler takes the oldest queued
    job and runs it; a job queued with
    [hass.add_job(self.async_remove_device, device_id)] calls that method
    of that listener. *)
Definition run_next_job : M unit :=
  h ← get;
  match jobs h with
  | [] => mret ()
  | j :: js =>
    modify (set_jobs js);;
    async_remove_device (job_listener j) (job_device_id j)
  end.

(** No entry of the registry carries the device id under this domain. *)
Definition unregistered (reg : dr.devices) (device_id : string) : Prop :=
  map_Forall (λ (_ : nat) d, (DOMAIN, device_id) ∉ dr.identifiers d) reg.

(** An entry as [async_setup_entry] leaves it for a device: it carries the
    device's identifier, belongs to the config entry and names Tuya as
    manufacturer. *)
Definition registered_for (entry device_id : string) (d : dr.DeviceEntry) : Prop :=
  (DOMAIN, device_id) ∈ dr.identifiers d ∧
  entry ∈ dr.config_entries d ∧
  dr.manufacturer d = Some "Tuya".

End Scheduling.

(** What a manager was constructed with, and who listens to it. *)
Definition same_identity (m m' : Manager.t) : Prop :=
  Manager.client_id m' = Manager.client_id m ∧
  Manager.user_code m' = Manager.user_code m ∧
  Manager.terminal_id m' = Manager.terminal_id m ∧
  Manager.endpoint m' = Manager.endpoint m ∧
  Manager.token_info m' = Manager.token_info m ∧
  Manager.token_listener m' = Manager.token_listener m ∧
  Manager.device_listeners m' = Manager.device_listeners m.

(** Every manager keeps its identity. *)
Definition managers_kept (h h' : HomeAssistant) : Prop :=
  ∀ m, same_identity (managers h m) (managers h' m).

(** Events of the steps that follow the device-cache refresh. *)
Definition is_after_refresh (e : event) : bool :=
  match e with
  | ForwardEntrySetups _ _ | RefreshMq _ => true
  | _ => false
  end.

(** ** Sample data *)

Module sample.

Definition const : Const := {|
  DOMAIN := "tuya";
  CONF_APP_TYPE := "tuya_app_type";
  CONF_USER_CODE := "user_code";
  CONF_TERMINAL_ID := "terminal_id";
  CONF_ENDPOINT := "endpoint";
  CONF_TOKEN_INFO := "token_info";
  TUYA_CLIENT_ID := "HA_client";
  TUYA_DISCOVERY_NEW := "tuya_discovery_new";
  TUYA_HA_SIGNAL_UPDATE_ENTITY := "tuya_entry_update";
  PLATFORMS := ["light"; "switch"];
  __version__ := "2024.2.0"
|}.

Definition device (i : string) : CustomerDevice.t :=
  {| CustomerDevice.id := i; CustomerDevice.name := "lamp";
     CustomerDevice.product_name := "bulb"; CustomerDevice.status := [] |}.

Definition registered (i : string) : dr.DeviceEntry :=
  {| dr.identifiers := {[ ("tuya", i) ]}; dr.config_entries := {[ "e1" ]};
     dr.manufacturer := Some "Tuya"; dr.name := Some "lamp";
     dr.model := Some "bulb (unsupported)" |}.

Definition credentials : gmap string pyval :=
  {[ "user_code" := PStr "u"; "terminal_id" := PStr "t";
     "endpoint" := PStr "https://example.invalid";
     "token_info" := PDict [("access_token", PStr "old")] ]}.

Definition legacy : gmap string pyval :=
  <[ "tuya_app_type" := PStr "smartlife" ]> credentials.

(** A host that has never set the integration up; entry ["legacy"] still
    carries the old marker; the registry knows devices ["a"] and ["c"]. *)
Definition fresh_host : HomeAssistant := {|
  data := ∅;
  entries := λ e, if decide (e = "legacy") then legacy else credentials;
  device_registry := {[ 0%nat := registered "a"; 1%nat := registered "c" ]};
  managers := λ _, Manager.blank;
  next_manager := 0;
  listeners := λ _, {| dl_manager := 0 |};
  next_listener := 0;
  jobs := [];
  trace := []
|}.

Definition manifest : Manifest :=
  {| version := Some "1.0.0";
     requirements := Some ["tuya-device-sharing-sdk==0.2.0"] |}.

(** The vendor knows devices ["a"] and ["b"]. *)
Definition devices : gmap string CustomerDevice.t :=
  {[ "a" := device "a"; "b" := device "b" ]}.

(** Every collaborator answers. *)
Definition env : Env := {|
  integration := inr manifest;
  report_version_raises := None;
  refreshed_device_map := inr devices;
  forward_entry_setups_raises := None;
  refresh_mq_raises := None;
  unload_platforms_result := inr true;
  mq_stop_raises := None;
  unload_raises := None
|}.

(** As [env], but the vendor backend rejects the version report. *)
Definition env_report_fails : Env := {|
  integration := inr manifest;
  report_version_raises := Some (ExternalError "report_version");
  refreshed_device_map := inr devices;
  forward_entry_setups_raises := None;
  refresh_mq_raises := None;
  unload_platforms_result := inr true;
  mq_stop_raises := None;
  unload_raises := None
|}.

(** The host after entry ["e1"] has been set up once. *)
Definition active_host : HomeAssistant :=
  (@async_setup_entry const env "e1" fresh_host).2.

End sample.

(** ** More sample data *)

Module sample_more.

(** A manifest that names the SDK with a version range. *)
Definition manifest_unpinned : Manifest :=
  {| version := None;
     requirements := Some ["requests"; "tuya-device-sharing-sdk>=0.2.0"] |}.

(** A manifest that pins the SDK among other requirements. *)
Definition manifest_pinned : Manifest :=
  {| version := Some "1.0.0";
     requirements := Some ["requests"; "tuya-device-sharing-sdk==0.2.0"; "paho-mqtt"] |}.

(** A manifest without version and requirements. *)
Definition manifest_bare : Manifest :=
  {| version := None; requirements := None |}.

Definition with_manifest (mf : Manifest) : Env := {|
  integration := inr mf;
  report_version_raises := None;
  refreshed_device_map := inr sample.devices;
  forward_entry_setups_raises := None;
  refresh_mq_raises := None;
  unload_platforms_result := inr true;
  mq_stop_raises := None;
  unload_raises := None
|}.

(** The vendor fails to refresh the device cache. *)
Definition env_cache_fails : Env := {|
  integration := inr sample.manifest;
  report_version_raises := None;
  refreshed_device_map := inl (ExternalError "update_device_cache");
  forward_entry_setups_raises := None;
  refresh_mq_raises := None;
  unload_platforms_result := inr true;
  mq_stop_raises := None;
  unload_raises := None
|}.

(** The vendor fails to unload. *)
Definition env_unload_fails : Env := {|
  integration := inr sample.manifest;
  report_version_raises := None;
  refreshed_device_map := inr sample.devices;
  forward_entry_setups_raises := None;
  refresh_mq_raises := None;
  unload_platforms_result := inr true;
  mq_stop_raises := None;
  unload_raises := Some (ExternalError "unload")
|}.

(** A host whose entries only hold a user code. *)
Definition bare_host : HomeAssistant :=
  set_entries (λ _, {[ "user_code" := PStr "u" ]}) sample.fresh_host.

(** A device of another integration. *)
Definition hue_bridge : dr.DeviceEntry :=
  {| dr.identifiers := {[ ("hue", "bridge") ]}; dr.config_entries := {[ "h1" ]};
     dr.manufacturer := Some "Signify"; dr.name := Some "bridge";
     dr.model := Some "BSB002" |}.

Definition mixed_host : HomeAssistant :=
  set_device_registry (<[7 := hue_bridge]> (device_registry sample.fresh_host))
    sample.fresh_host.

(** The host after a setup, with the registry as it was before it:
    the manager knows ["a"] and ["b"], the registry ["a"] and ["c"]. *)
Definition stale_host : HomeAssistant :=
  set_device_registry (device_registry sample.fresh_host) sample.active_host.

End sample_more.

(** ** Properties *)

Section Properties.
Context `{Const}.

Ltac run :=
  repeat (unfold mbind, mret, M_bind, M_ret, get, modify, emit, raise, lift,
            getitem, outcome in *; simpl in * ).

(** *** Reasoning along a frame relation *)

Lemma frames_ret {A} (R : relation HomeAssistant) `{!Reflexive R} (a : A) :
  frames R (mret a).
Proof. intros h. reflexivity. Qed.

Lemma frames_raise {A} (R : relation HomeAssistant) `{!Reflexive R} e :
  frames R (raise e : M A).
Proof. intros h. reflexivity. Qed.

Lemma frames_lift {A} (R : relation HomeAssistant) `{!Reflexive R} (r : result A) :
  frames R (lift r).
Proof. intros h. reflexivity. Qed.

Lemma frames_get (R : relation HomeAssistant) `{!Reflexive R} : frames R get.
Proof. intros h. reflexivity. Qed.

Lemma frames_modify (R : relation HomeAssistant) f :
  (∀ h, R h (f h)) → frames R (modify f).
Proof. intros Hf h. apply Hf. Qed.

Lemma frames_bind {A B} (R : relation HomeAssistant) `{!Transitive R}
    (c : M A) (k : A → M B) :
  frames R c → (∀ a, frames R (k a)) → frames R (c ≫= k).
Proof.
  intros Hc Hk h. specialize (Hc h). unfold mbind, M_bind.
  destruct (c h) as [[a|e] h1]; simpl in *; [|done].
  etrans; [exact Hc | apply Hk].
Qed.

(** A continuation that reads the store first. *)
Lemma frames_get_bind {A} (R : relation HomeAssistant) (k : HomeAssistant → M A) :
  (∀ h0, frames R (k h0)) → frames R (get ≫= k).
Proof. intros Hk h. apply (Hk h h). Qed.

Lemma frames_for {A} (R : relation HomeAssistant) `{!PreOrder R}
    (xs : list A) (body : A → M unit) :
  (∀ x, frames R (body x)) → frames R (for_ xs body).
Proof.
  intros Hb. induction xs as [|x xs IH]; simpl.
  - apply frames_ret; apply _.
  - apply frames_bind; [apply _ | apply Hb | intros _; apply IH].
Qed.

Lemma frames_getitem {V} (R : relation HomeAssistant) `{!Reflexive R}
    (d : gmap string V) key :
  frames R (getitem d key).
Proof. intros h. unfold getitem. destruct (d !! key); reflexivity. Qed.

Lemma frames_outcome (R : relation HomeAssistant) `{!Reflexive R} o :
  frames R (outcome o).
Proof. intros h. destruct o; reflexivity. Qed.

(** *** The legacy marker *)

Lemma setdefault_domain_session h entry :
  session_of (setdefault_domain h).2 entry = session_of h entry.
Proof.
  unfold setdefault_domain, session_of. run.
  destruct (data h !! DOMAIN) as [ns|] eqn:E; simpl; [by rewrite E|].
  rewrite lookup_insert_eq. simpl. apply lookup_empty.
Qed.

(** C2. An entry whose data still holds the legacy app-type key makes
    [async_setup_entry] raise [ConfigEntryAuthFailed].  The only effect is
    the [setdefault] of the namespace: no manager or listener is
    constructed, no collaborator is called, and the session stored under
    the entry id, if any, is the one stored before; in particular nothing
    is stored for an entry that had no session. *)
Theorem setup_with_legacy_marker_fails env entry h :
  is_Some (entries h entry !! CONF_APP_TYPE) →
  ∃ h',
    async_setup_entry env entry h
      = (Raise (ConfigEntryAuthFailed "Authentication failed. Please re-authenticate."), h') ∧
    h' = (setdefault_domain h).2 ∧
    session_of h' entry = session_of h entry ∧
    next_manager h' = next_manager h ∧
    next_listener h' = next_listener h ∧
    managers h' = managers h ∧
    trace h' = trace h.
Proof.
  intros Hlegacy. exists (setdefault_domain h).2. split.
  - unfold async_setup_entry. unfold mbind at 1, M_bind.
    destruct (setdefault_domain h) as [[[]|e] h1] eqn:E1; [|by inversion E1].
    unfold mbind at 1, M_bind, get.
    assert (entries h1 = entries h) as ->.
    { unfold setdefault_domain in E1. run. inversion E1.
      by destruct (data h !! DOMAIN). }
    rewrite bool_decide_eq_true_2 by done. done.
  - split; [done|]. split; [apply setdefault_domain_session|].
    unfold setdefault_domain. run. by destruct (data h !! DOMAIN).
Qed.

(** *** Token refresh *)

(** C5. [update_token] hands the host's config-entry update the prior
    data with ["token_info"] set to the blob it received: the blob is
    stored as it came, every other key keeps its value, and a later read of
    the entry shows exactly that mapping; the data of other entries is left
    alone. *)
Theorem update_token_overwrites_token_info_only self (T : pyval) h :
  let D := entries h (tl_entry self) in
  let written := <["token_info" := T]> D in
  let r := update_token self T h in
  r.1 = Ok () ∧
  trace r.2 = trace h ++ [LoggerDebug "update token info : %s";
                          UpdateEntry (tl_entry self) written] ∧
  entries r.2 (tl_entry self) = written ∧
  written !! "token_info" = Some T ∧
  (∀ key, key ≠ "token_info" → written !! key = D !! key) ∧
  (∀ other, other ≠ tl_entry self → entries r.2 other = entries h other).
Proof.
  unfold update_token, host.async_update_entry. run.
  repeat split.
  - by rewrite <- app_assoc.
  - apply fn_lookup_insert.
  - apply lookup_insert_eq.
  - intros key Hkey. by apply lookup_insert_ne.
  - intros other Hother. by apply fn_lookup_insert_ne.
Qed.

(** *** Unloading *)

(** What [async_unload_entry] does: it logs, asks the host to unload the
    platforms and hands back the host's answer; only the trace grows. *)
Lemma async_unload_entry_spec env entry h :
  async_unload_entry env entry h =
    (match unload_platforms_result env with
     | inl e => Raise e
     | inr ok => Ok ok
     end,
     set_trace (trace h ++ [LoggerDebug "unload entry id = %s";
                            UnloadPlatforms entry PLATFORMS]) h).
Proof.
  unfold async_unload_entry, host.async_unload_platforms. run.
  rewrite <- app_assoc. simpl. by destruct (unload_platforms_result env).
Qed.

(** *** Device updates *)

(** C9. [update_device] reads [self.manager.device_map[device.id]] before
    anything else.  With the id in the map it logs and sends the
    per-device signal; with the id absent it raises [KeyError] and the
    store, trace included, is as before: nothing was sent. *)
Theorem update_device_requires_known_device self device h :
  let dm := Manager.device_map (managers h (dl_manager (listeners h self))) in
  (is_Some (dm !! CustomerDevice.id device) →
     update_device self device h =
       (Ok (),
        set_trace (trace h ++
          [LoggerDebug "Received update for device %s: %s";
           DispatcherSend (TUYA_HA_SIGNAL_UPDATE_ENTITY +:+ "_" +:+ CustomerDevice.id device) []])
          h)) ∧
  (dm !! CustomerDevice.id device = None →
     update_device self device h = (Raise (KeyError (CustomerDevice.id device)), h)).
Proof.
  simpl. unfold update_device, host.dispatcher_send. run. split.
  - intros [d ->]. simpl. by rewrite <- app_assoc.
  - by intros ->.
Qed.

(** *** Removing an entry *)

(** C10. [async_remove_entry] reads [hass.data[DOMAIN][entry_id]] right
    after its log line.  Without a session stored for the entry it raises
    [KeyError] (for [DOMAIN] when the namespace is missing, for the entry id
    otherwise) and nothing but the log line has happened: no channel stop,
    no listener removal, no unload, no change to [hass.data]. *)
Theorem remove_entry_requires_session env entry h :
  session_of h entry = None →
  async_remove_entry env entry h =
    (Raise (KeyError (if data h !! DOMAIN is Some _ then entry else DOMAIN)),
     set_trace (trace h ++ [LoggerDebug "remove entry id = %s"]) h).
Proof.
  unfold session_of, async_remove_entry. run. intros Hnone.
  destruct (data h !! DOMAIN) as [ns|]; simpl in *; [|done].
  by rewrite Hnone.
Qed.

(** C6. With a session stored for the entry and the vendor calls
    returning, [async_remove_entry] calls [mq.stop()] first when the
    manager has a push channel, then removes the device listener, then
    unloads the manager, in this order and nothing else; afterwards the
    entry's session is gone from the namespace, and the namespace itself is
    gone from [hass.data] when that left it empty. *)
Theorem remove_entry_teardown_order env entry h ns tuya :
  data h !! DOMAIN = Some ns →
  ns !! entry = Some tuya →
  mq_stop_raises env = None →
  unload_raises env = None →
  let m := manager tuya in
  let r := async_remove_entry env entry h in
  r.1 = Ok () ∧
  trace r.2 = trace h ++
    [LoggerDebug "remove entry id = %s"] ++
    (if Manager.mq (managers h m) is Some _ then [MqStop m] else []) ++
    [RemoveDeviceListener m (listener tuya); Unload m] ∧
  data r.2 = (if decide (delete entry ns = ∅)
              then delete DOMAIN (data h)
              else <[DOMAIN := delete entry ns]> (data h)) ∧
  session_of r.2 entry = None.
Proof.
  intros Hns Htuya Hstop Hunload. simpl.
  unfold async_remove_entry, sdk.mq_stop, sdk.remove_device_listener,
    sdk.unload, sdk.update_manager, session_of.
  run. rewrite Hns. simpl. rewrite Htuya. simpl.
  destruct (Manager.mq (managers h (manager tuya))) as [[]|] eqn:Hmq;
    run; rewrite ?Hstop, ?Hunload; run; rewrite Hns; simpl; rewrite Htuya; simpl;
    rewrite lookup_insert_eq; simpl;
    (destruct (decide (delete entry ns = ∅)) as [Hempty|Hne]; simpl;
     [ rewrite delete_insert_eq, lookup_delete_eq; simpl;
       repeat split; by rewrite <- ?app_assoc
     | rewrite lookup_insert_eq; simpl; rewrite lookup_delete_eq;
       repeat split; by rewrite <- ?app_assoc ]).
Qed.

(** *** The host registry *)

Lemma matches_singleton item d :
  dr.matches {[ item ]} d ↔ item ∈ dr.identifiers d.
Proof.
  unfold dr.matches. split.
  - intros Hne. apply set_choose_L in Hne as [x Hx]. set_solver.
  - intros Hin Hempty. set_solver.
Qed.

Lemma async_get_device_Some reg idents k d :
  dr.async_get_device reg idents = Some (k, d) →
  reg !! k = Some d ∧ dr.matches idents d.
Proof.
  unfold dr.async_get_device. intros Hhead.
  apply head_Some_elem_of, list_elem_of_filter in Hhead as [Hm Hin].
  by apply elem_of_map_to_list in Hin.
Qed.

Lemma async_get_device_None reg idents :
  dr.async_get_device reg idents = None ↔
  ∀ k d, reg !! k = Some d → ¬ dr.matches idents d.
Proof.
  unfold dr.async_get_device. rewrite head_None. split.
  - intros Hnil k d Hkd Hm.
    eapply (filter_nil_not_elem_of _ _ (k, d)) in Hnil; [|done].
    by apply Hnil, elem_of_map_to_list.
  - intros Hno. destruct (filter _ _) as [|[k d] l] eqn:E; [done|].
    assert ((k, d) ∈ filter (λ kd : nat * dr.DeviceEntry, dr.matches idents kd.2)
                        (map_to_list reg)) as Hin by (rewrite E; left).
    apply list_elem_of_filter in Hin as [Hm Hin].
    apply elem_of_map_to_list in Hin. by destruct (Hno k d).
Qed.

Lemma unique_identifiers_spec reg :
  unique_identifiers reg ↔
  ∀ k1 k2 d1 d2 item,
    reg !! k1 = Some d1 → reg !! k2 = Some d2 →
    item ∈ dr.identifiers d1 → item ∈ dr.identifiers d2 → k1 = k2.
Proof.
  unfold unique_identifiers. split.
  - intros Hu k1 k2 d1 d2 item H1 H2 Hi1 Hi2.
    destruct (decide (k1 = k2)) as [|Hne]; [done|].
    destruct (Hu k1 d1 H1 k2 d2 H2 Hne item Hi1 Hi2).
  - intros Hu k1 d1 H1 k2 d2 H2 Hne item Hi1 Hi2.
    apply Hne. eauto.
Qed.

Lemma unique_identifiers_delete reg k :
  unique_identifiers reg → unique_identifiers (dr.async_remove_device k reg).
Proof.
  rewrite !unique_identifiers_spec.
  unfold dr.async_remove_device. intros Hu k1 k2 d1 d2 item H1 H2 Hi1 Hi2.
  apply lookup_delete_Some in H1 as [_ H1], H2 as [_ H2]. eauto.
Qed.

(** Get-or-create by a single identifier keeps identifiers unique. *)
Lemma unique_identifiers_get_or_create reg entry item mf nm md :
  unique_identifiers reg →
  unique_identifiers (dr.async_get_or_create reg entry {[ item ]} mf nm md).
Proof.
  rewrite !unique_identifiers_spec.
  unfold dr.async_get_or_create. intros Hu.
  destruct (dr.async_get_device reg {[ item ]}) as [[k d]|] eqn:E; simpl.
  - apply async_get_device_Some in E as [Hk Hm]. apply matches_singleton in Hm.
    intros k1 k2 d1 d2 i H1 H2 Hi1 Hi2.
    apply lookup_insert_Some in H1 as [[<- <-]|[Hne1 H1]],
          H2 as [[<- <-]|[Hne2 H2]]; simpl in *; [done|..].
    + apply (Hu k k2 d d2 i); [done..| |done]. set_solver.
    + apply (Hu k1 k d1 d i); [done..|]. set_solver.
    + eauto.
  - assert (∀ k d, reg !! k = Some d → item ∉ dr.identifiers d) as Hno.
    { intros k d Hk Hin. eapply async_get_device_None; [done..|].
      by apply matches_singleton. }
    intros k1 k2 d1 d2 i H1 H2 Hi1 Hi2.
    apply lookup_insert_Some in H1 as [[<- <-]|[Hne1 H1]],
          H2 as [[<- <-]|[Hne2 H2]]; simpl in *; [done|..].
    + assert (i = item) as -> by set_solver. by destruct (Hno k2 d2).
    + assert (i = item) as -> by set_solver. by destruct (Hno k1 d1).
    + eauto.
Qed.

(** *** Removal through the listener *)

Lemma async_remove_device_spec self device_id h :
  async_remove_device self device_id h =
    (Ok (),
     set_trace (trace h ++ [LoggerDebug "Remove device: %s"])
       (set_device_registry
          (match dr.async_get_device (device_registry h) {[ (DOMAIN, device_id) ]} with
           | Some device_entry => dr.async_remove_device device_entry.1 (device_registry h)
           | None => device_registry h
           end) h)).
Proof.
  unfold async_remove_device, host.device_registry_update. run.
  by destruct (dr.async_get_device _ _).
Qed.

(** C7. [DeviceListener.async_remove_device] always returns.  When no
    registry entry carries the identifier [(DOMAIN, device_id)] it leaves
    the registry as it is; and in a registry where no identifier is shared
    by two entries, running it a second time for the same id changes
    nothing more. *)
Theorem listener_removal_idempotent self device_id h :
  let once := (async_remove_device self device_id h).2 in
  let twice := (async_remove_device self device_id once).2 in
  (async_remove_device self device_id h).1 = Ok () ∧
  ((∀ k d, device_registry h !! k = Some d → (DOMAIN, device_id) ∉ dr.identifiers d) →
     device_registry once = device_registry h) ∧
  (unique_identifiers (device_registry h) →
     device_registry twice = device_registry once).
Proof.
  simpl. rewrite !async_remove_device_spec. simpl.
  split; [done|]. split.
  - intros Hno.
    destruct (dr.async_get_device _ _) as [[k d]|] eqn:E; [|done].
    apply async_get_device_Some in E as [Hk Hm].
    apply matches_singleton in Hm. by destruct (Hno k d).
  - intros Hu. rewrite unique_identifiers_spec in Hu.
    destruct (dr.async_get_device (device_registry h) _) as [[k d]|] eqn:E; simpl.
    + apply async_get_device_Some in E as [Hk Hm]. apply matches_singleton in Hm.
      assert (dr.async_get_device (dr.async_remove_device k (device_registry h))
                {[ (DOMAIN, device_id) ]} = None) as ->; [|done].
      apply async_get_device_None. intros k' d' Hk' Hm'.
      apply matches_singleton in Hm'. unfold dr.async_remove_device in Hk'.
      apply lookup_delete_Some in Hk' as [Hne Hk'].
      apply Hne. eapply Hu; eauto.
    + by rewrite E.
Qed.

(** *** Steps that construct nothing and keep the stored sessions *)

#[local] Instance sessions_kept_preorder : PreOrder sessions_kept.
Proof.
  split.
  - intros h. repeat split. exists []. by rewrite app_nil_r.
  - intros h1 h2 h3 (Hd1 & Hm1 & Hl1 & Hls1 & evs1 & Ht1 & Hf1)
                    (Hd2 & Hm2 & Hl2 & Hls2 & evs2 & Ht2 & Hf2).
    repeat split; try congruence.
    exists (evs1 ++ evs2). split.
    + by rewrite Ht2, Ht1, app_assoc.
    + by apply Forall_app.
Qed.

Lemma sessions_kept_emit e :
  is_construction e = false → frames sessions_kept (emit e).
Proof.
  intros He. apply frames_modify. intros h. repeat split.
  exists [e]. split; [done|]. by constructor.
Qed.

Lemma sessions_kept_update_manager m f :
  frames sessions_kept (sdk.update_manager m f).
Proof. apply frames_modify. intros h. repeat split. exists []. by rewrite app_nil_r. Qed.

Lemma sessions_kept_registry_update f :
  frames sessions_kept (host.device_registry_update f).
Proof. apply frames_modify. intros h. repeat split. exists []. by rewrite app_nil_r. Qed.

Ltac frame_step R :=
  lazymatch goal with
  | |- frames _ (mret _) => apply (frames_ret R)
  | |- frames _ (raise _) => apply (frames_raise R)
  | |- frames _ (lift _) => apply (frames_lift R)
  | |- frames _ (getitem _ _) => apply (frames_getitem R)
  | |- frames _ (outcome _) => apply (frames_outcome R)
  | |- frames _ (get ≫= _) => apply (frames_get_bind R); intros ?
  | |- frames _ (_ ≫= _) => apply (frames_bind R); [|intros ?]
  | |- frames _ (for_ _ _) => apply (frames_for R); intros ?
  | |- frames _ (match ?x with _ => _ end) => destruct x
  end.

Ltac frame_kept :=
  repeat first
    [ apply sessions_kept_emit; reflexivity
    | apply sessions_kept_update_manager
    | apply sessions_kept_registry_update
    | frame_step sessions_kept ].

Lemma sessions_kept_report_version env m :
  frames sessions_kept (report_version env m).
Proof.
  unfold report_version, host.async_get_integration, sdk.report_version.
  frame_kept.
Qed.

Lemma sessions_kept_update_device_cache env m :
  frames sessions_kept (sdk.update_device_cache env m).
Proof. unfold sdk.update_device_cache. frame_kept. Qed.

Lemma sessions_kept_cleanup m :
  frames sessions_kept (cleanup_device_registry m).
Proof. unfold cleanup_device_registry. frame_kept. Qed.

Lemma sessions_kept_register_device entry device :
  frames sessions_kept (register_device entry device).
Proof. unfold register_device. frame_kept. Qed.

Lemma sessions_kept_forward env entry platforms :
  frames sessions_kept (host.async_forward_entry_setups env entry platforms).
Proof. unfold host.async_forward_entry_setups. frame_kept. Qed.

Lemma sessions_kept_refresh_mq env m :
  frames sessions_kept (sdk.refresh_mq env m).
Proof. unfold sdk.refresh_mq. frame_kept. Qed.

Lemma setdefault_domain_present h ns :
  data h !! DOMAIN = Some ns → setdefault_domain h = (Ok (), h).
Proof. intros Hns. unfold setdefault_domain, modify. by rewrite Hns. Qed.

Lemma bind_run {A B} (c : M A) (k : A → M B) h :
  (c ≫= k) h = match c h with
               | (Ok a, h') => k a h'
               | (Raise e, h') => (Raise e, h')
               end.
Proof. reflexivity. Qed.

Lemma frames_run {A} (R : relation HomeAssistant) (c : M A) h :
  frames R c → R h (c h).2.
Proof. intros Hc. apply Hc. Qed.

(** The steps of [async_setup_entry] once the manager is at hand. *)
Lemma sessions_kept_setup_steps env entry m :
  frames sessions_kept
    (report_version env m;; sdk.update_device_cache env m;;
     cleanup_device_registry m;;
     h' ← get;
     for_ (map_to_list (Manager.device_map (managers h' m)))
       (λ kd, register_device entry kd.2);;
     host.async_forward_entry_setups env entry PLATFORMS;;
     sdk.refresh_mq env m;; mret true).
Proof.
  repeat first
    [ apply sessions_kept_report_version
    | apply sessions_kept_update_device_cache
    | apply sessions_kept_cleanup
    | apply sessions_kept_register_device
    | apply sessions_kept_forward
    | apply sessions_kept_refresh_mq
    | frame_step sessions_kept ].
Qed.

(** With a session stored for the entry, [async_setup_entry] takes the
    [else] branch: whatever the collaborators answer, it constructs nothing
    and [hass.data] stays as it is. *)
Lemma setup_reuses_stored_session env entry h tuya :
  session_of h entry = Some tuya →
  sessions_kept h (async_setup_entry env entry h).2.
Proof.
  unfold session_of. intros Hs.
  destruct (data h !! DOMAIN) as [ns|] eqn:Hns; simpl in Hs; [|done].
  unfold async_setup_entry.
  rewrite bind_run, (setdefault_domain_present h ns Hns).
  rewrite bind_run. unfold get at 1.
  destruct (bool_decide _); [reflexivity|].
  rewrite bind_run. unfold getitem at 1. rewrite Hns.
  unfold mret at 1, M_ret at 1.
  rewrite bind_run, Hs. unfold mret at 1, M_ret at 1.
  apply frames_run, sessions_kept_setup_steps.
Qed.

Lemma async_setup_entry_blocks env entry :
  async_setup_entry env entry =
    (setdefault_domain;;
     h ← get;
     if bool_decide (is_Some (entries h entry !! CONF_APP_TYPE))
     then raise (ConfigEntryAuthFailed "Authentication failed. Please re-authenticate.")
     else
       ns ← getitem (data h) DOMAIN;
       manager' ← match ns !! entry with
                  | None => new_session entry (entries h entry)
                  | Some tuya => mret (manager tuya)
                  end;
       setup_steps env entry manager').
Proof. reflexivity. Qed.

Lemma session_of_kept h h' entry :
  sessions_kept h h' → session_of h' entry = session_of h entry.
Proof. intros (Hd & _). unfold session_of. by rewrite Hd. Qed.

Lemma unload_keeps_sessions_kept env entry h :
  sessions_kept h (async_unload_entry env entry h).2.
Proof.
  rewrite async_unload_entry_spec. repeat split.
  eexists. split; [reflexivity|]. by repeat constructor.
Qed.

Lemma calls_keep_sessions entry tuya cs h :
  session_of h entry = Some tuya →
  sessions_kept h (calls entry cs h).
Proof.
  unfold calls. revert h. induction cs as [|c cs IH]; intros h Hs; simpl.
  - reflexivity.
  - assert (sessions_kept h (call entry h c)) as Hstep.
    { destruct c as [env|env]; simpl.
      - by eapply setup_reuses_stored_session.
      - apply unload_keeps_sessions_kept. }
    etrans; [exact Hstep|]. apply IH.
    by rewrite (session_of_kept _ _ _ Hstep).
Qed.

(** C3. Once a session is stored for an entry id, a further
    [async_setup_entry] for it, directly or after any number of setups
    and unloads of the entry, finds the very same session (same manager,
    same listener) stored afterwards: it has constructed no manager and no
    listener, registered no listener, and left [hass.data] as it was. *)
Theorem setup_again_reuses_session entry h tuya cs env :
  session_of h entry = Some tuya →
  let h' := (async_setup_entry env entry (calls entry cs h)).2 in
  session_of h' entry = Some tuya ∧
  data h' = data h ∧
  next_manager h' = next_manager h ∧
  next_listener h' = next_listener h ∧
  Forall (λ e, is_construction e = false) (events_since h h').
Proof.
  intros Hs. simpl.
  assert (sessions_kept h (calls entry cs h)) as H1
    by (by eapply calls_keep_sessions).
  assert (sessions_kept (calls entry cs h)
            (async_setup_entry env entry (calls entry cs h)).2) as H2.
  { eapply setup_reuses_stored_session.
    by rewrite (session_of_kept _ _ _ H1). }
  assert (sessions_kept h (async_setup_entry env entry (calls entry cs h)).2) as H3
    by (etrans; eassumption).
  split; [by rewrite (session_of_kept _ _ _ H3)|].
  destruct H3 as (Hd & Hm & Hl & _ & evs & Ht & Hevs).
  repeat split; try done.
  unfold events_since. by rewrite Ht, drop_app_length.
Qed.

(** C8. [async_unload_entry] logs, asks the host to unload the entry's
    platforms and returns the host's answer (or raises what the host
    raised).  It changes nothing but the trace: [hass.data], hence the
    session stored under any entry id, the managers and the listeners are
    as before.  A setup that follows therefore finds the session it had and
    constructs no other. *)
Theorem unload_keeps_session env entry h :
  let r := async_unload_entry env entry h in
  r.1 = match unload_platforms_result env with
        | inl e => Raise e
        | inr ok => Ok ok
        end ∧
  r.2 = set_trace (trace h ++ [LoggerDebug "unload entry id = %s";
                               UnloadPlatforms entry PLATFORMS]) h ∧
  (∀ other, session_of r.2 other = session_of h other) ∧
  (∀ env' tuya,
     session_of h entry = Some tuya →
     let h' := (async_setup_entry env' entry r.2).2 in
     session_of h' entry = Some tuya ∧
     next_manager h' = next_manager h ∧
     next_listener h' = next_listener h).
Proof.
  simpl. rewrite async_unload_entry_spec. simpl.
  split; [done|]. split; [done|]. split; [done|].
  intros env' tuya Hs.
  set (hu := set_trace _ h).
  assert (session_of hu entry = Some tuya) as Hu by exact Hs.
  pose proof (setup_reuses_stored_session env' entry hu tuya Hu) as Hk.
  split; [by rewrite (session_of_kept _ _ _ Hk)|].
  destruct Hk as (_ & Hm & Hl & _). by split.
Qed.

(** *** Up to the version report *)

#[local] Instance quiet_preorder ok : PreOrder (quiet ok).
Proof.
  split.
  - intros h. split; [done|]. exists []. by rewrite app_nil_r.
  - intros h1 h2 h3 (Hr1 & evs1 & Ht1 & Hf1) (Hr2 & evs2 & Ht2 & Hf2).
    split; [congruence|]. exists (evs1 ++ evs2). split.
    + by rewrite Ht2, Ht1, app_assoc.
    + by apply Forall_app.
Qed.

Lemma quiet_emit ok e : ok e = true → frames (quiet ok) (emit e).
Proof.
  intros He. apply frames_modify. intros h. split; [done|].
  exists [e]. split; [done|]. by constructor.
Qed.

Lemma quiet_modify ok f :
  (∀ h, device_registry (f h) = device_registry h) →
  (∀ h, trace (f h) = trace h) →
  frames (quiet ok) (modify f).
Proof.
  intros Hr Ht. apply frames_modify. intros h. split; [done|].
  exists []. by rewrite app_nil_r.
Qed.

Ltac frame_quiet ok :=
  repeat first
    [ apply quiet_emit; reflexivity
    | apply quiet_modify; [by intros | by intros]
    | frame_step (quiet ok)
    | progress cbv zeta ].

Lemma quiet_setdefault_domain ok : frames (quiet ok) setdefault_domain.
Proof.
  apply quiet_modify; intros h; by destruct (data h !! DOMAIN).
Qed.

Lemma quiet_new_session entry d :
  frames (quiet before_report) (new_session entry d).
Proof.
  unfold new_session, sdk.Manager_init, DeviceListener_init,
    sdk.add_device_listener, sdk.update_manager, store_session.
  frame_quiet before_report.
Qed.

(** [async_setup_entry] either raises before it has a manager, or goes on
    with [setup_steps]; up to that point the registry is untouched and
    nothing was reported, refreshed or logged. *)
Lemma async_setup_entry_cases env entry h :
  ∃ hp, quiet before_report h hp ∧
    ((∃ e0, async_setup_entry env entry h = (Raise e0, hp)) ∨
     (∃ m, async_setup_entry env entry h = setup_steps env entry m hp)).
Proof.
  remember (async_setup_entry env entry h) as r eqn:Er.
  rewrite async_setup_entry_blocks, bind_run in Er.
  pose proof (quiet_setdefault_domain before_report h) as Hq1.
  destruct (setdefault_domain h) as [[[]|e0] h1]; simpl in Hq1; [|by eauto].
  rewrite bind_run in Er. unfold get at 1 in Er.
  destruct (bool_decide _); [by eauto|].
  rewrite bind_run in Er. unfold getitem at 1 in Er.
  destruct (data h1 !! DOMAIN) as [ns|]; [|unfold raise in Er; by eauto].
  unfold mret at 1, M_ret at 1 in Er. rewrite bind_run in Er.
  destruct (ns !! entry) as [tuya|].
  - unfold mret at 1, M_ret at 1 in Er. eauto.
  - pose proof (quiet_new_session entry (entries h1 entry) h1) as Hq2.
    destruct (new_session entry (entries h1 entry) h1) as [[m|e0] hp];
      simpl in Hq2; (exists hp; split; [by etrans|]); eauto.
Qed.

Lemma report_version_spec env m h :
  report_version env m h =
    match integration env with
    | inl e0 => (Raise e0, log_events [GetIntegration DOMAIN] h)
    | inr mf =>
      match sharing_sdk_of (default (chars "unknown") (requirements mf)) "" with
      | Raise e1 => (Raise e1, log_events [GetIntegration DOMAIN] h)
      | Ok v =>
        (match report_version_raises env with
         | None => Ok ()
         | Some e => Raise e
         end,
         log_events [GetIntegration DOMAIN;
                     ReportVersion m __version__ (default "unknown" (version mf)) v] h)
      end
    end.
Proof.
  unfold report_version, host.async_get_integration, sdk.report_version, log_events.
  run. destruct (integration env) as [e0|mf]; [done|]. simpl.
  destruct (sharing_sdk_of _ _) as [v|e1]; [|done]. simpl.
  rewrite <- app_assoc. by destruct (report_version_raises env).
Qed.

Lemma events_since_app h h' evs :
  trace h' = trace h ++ evs → events_since h h' = evs.
Proof. intros Ht. unfold events_since. by rewrite Ht, drop_app_length. Qed.

Lemma before_report_inv ev :
  before_report ev = true →
  is_later_setup_step ev = false ∧ is_log ev = false ∧ is_report_version ev = false.
Proof. by destruct ev. Qed.

(** After a quiet start, what is to be shown about the events of a
    failed setup follows from the events of its last stretch. *)
Lemma failed_setup_events (r : result bool) e evs tail :
  Forall (λ ev, before_report ev = true) evs →
  Forall (λ ev, is_later_setup_step ev = false ∧ is_log ev = false) tail →
  (∀ ev, ev ∈ tail → is_report_version ev = true →
         r = Raise e ∧ last tail = Some ev) →
  (∀ ev, ev ∈ evs ++ tail → is_report_version ev = true →
         r = Raise e ∧ last (evs ++ tail) = Some ev) ∧
  Forall (λ ev, is_later_setup_step ev = false ∧ is_log ev = false) (evs ++ tail).
Proof.
  intros Hevs Htail Hrep. split.
  - intros ev Hin Hev. apply elem_of_app in Hin as [Hin|Hin].
    + rewrite Forall_forall in Hevs. apply Hevs, before_report_inv in Hin.
      destruct Hin as (_ & _ & Hno). congruence.
    + destruct (Hrep ev Hin Hev) as [-> Hlast]. split; [done|].
      by rewrite last_app, Hlast.
  - apply Forall_app. split; [|done].
    eapply Forall_impl; [exact Hevs|]. intros ev Hev.
    apply before_report_inv in Hev. tauto.
Qed.

(** C4, as the code has it.  When the vendor's [report_version] raises,
    [async_setup_entry] does not return: it raises.  If the report was
    sent at all, the exception is the vendor's and the report is the last
    thing the setup did.  Either way no later step has run (no cache
    refresh, no platform setup, no push channel), nothing was logged, and
    the device registry is as before. *)
Theorem report_version_failure_propagates env entry h e :
  report_version_raises env = Some e →
  let r := async_setup_entry env entry h in
  let evs := events_since h r.2 in
  (∃ e', r.1 = Raise e') ∧
  ((∀ ev, ev ∈ evs → is_report_version ev = true →
          r.1 = Raise e ∧ last evs = Some ev) ∧
   Forall (λ ev, is_later_setup_step ev = false ∧ is_log ev = false) evs) ∧
  device_registry r.2 = device_registry h.
Proof.
  intros Hraise. simpl.
  destruct (async_setup_entry_cases env entry h)
    as (hp & (Hreg & evs & Ht & Hevs) & [[e0 Heq]|[m Heq]]); rewrite Heq; clear Heq.
  - simpl. split; [by eauto|]. split; [|done].
    rewrite (events_since_app h hp (evs ++ [])) by (by rewrite app_nil_r).
    apply failed_setup_events; [done|constructor|].
    intros ev Hin. by apply elem_of_nil in Hin.
  - unfold setup_steps. rewrite bind_run, report_version_spec.
    destruct (integration env) as [e0|mf]; [|destruct (sharing_sdk_of _ _) as [v|e1]];
      rewrite ?Hraise; simpl.
    + split; [by eauto|]. split; [|done].
      rewrite (events_since_app h _ (evs ++ [GetIntegration DOMAIN]))
        by (simpl; by rewrite Ht, app_assoc).
      apply failed_setup_events; [done|by repeat constructor|].
      intros ev Hin. by apply list_elem_of_singleton in Hin as ->.
    + split; [by eauto|]. split; [|done].
      rewrite (events_since_app h _
                 (evs ++ [GetIntegration DOMAIN;
                          ReportVersion m __version__ (default "unknown" (version mf)) v]))
        by (simpl; by rewrite Ht, app_assoc).
      apply failed_setup_events; [done|by repeat constructor|].
      intros ev Hin. apply elem_of_cons in Hin as [->|Hin]; [done|].
      by apply list_elem_of_singleton in Hin as ->.
    + split; [by eauto|]. split; [|done].
      rewrite (events_since_app h _ (evs ++ [GetIntegration DOMAIN]))
        by (simpl; by rewrite Ht, app_assoc).
      apply failed_setup_events; [done|by repeat constructor|].
      intros ev Hin. by apply list_elem_of_singleton in Hin as ->.
Qed.

(** *** Pruning and registering devices *)

Lemma elem_of_registered_ids reg x :
  x ∈ registered_ids reg ↔
  ∃ k d, reg !! k = Some d ∧ (DOMAIN, x) ∈ dr.identifiers d.
Proof.
  unfold registered_ids, device_ids. rewrite elem_of_union_list. split.
  - intros (X & HX & Hx).
    apply list_elem_of_fmap in HX as (d & -> & Hd).
    apply list_elem_of_fmap in Hd as ([k d'] & -> & Hkd).
    apply elem_of_map_to_list in Hkd.
    apply elem_of_map in Hx as ([dom' x'] & -> & Hin).
    apply elem_of_filter in Hin as [Hdom Hin]. simpl in *. subst dom'.
    eauto.
  - intros (k & d & Hk & Hin).
    exists (set_map snd (filter (λ item : string * string, item.1 = DOMAIN)
                           (dr.identifiers d))).
    split.
    + apply list_elem_of_fmap. exists d. split; [done|].
      apply list_elem_of_fmap. exists (k, d). split; [done|].
      by apply elem_of_map_to_list.
    + apply elem_of_map. exists (DOMAIN, x). split; [done|].
      by apply elem_of_filter.
Qed.

Lemma stale_false dm d :
  stale dm d = false ↔
  ∀ x, (DOMAIN, x) ∈ dr.identifiers d → is_Some (dm !! x).
Proof.
  unfold stale. split.
  - intros Hno x Hin.
    destruct (dm !! x) as [v|] eqn:Hx; [by eauto|]. exfalso.
    assert (existsb (λ item : string * string,
                       bool_decide (item.1 = DOMAIN) && bool_decide (dm !! item.2 = None))
                    (elements (dr.identifiers d)) = true) as Hyes; [|congruence].
    apply existsb_exists. exists (DOMAIN, x). split.
    + by apply list_elem_of_In, elem_of_elements.
    + simpl. by rewrite !bool_decide_eq_true_2.
  - intros Hall. apply not_true_is_false. intros Hyes.
    apply existsb_exists in Hyes as ([dom' x] & Hin & Hc).
    apply list_elem_of_In, elem_of_elements in Hin.
    apply andb_true_iff in Hc as [Hdom Hnone].
    apply bool_decide_eq_true in Hdom, Hnone. simpl in *. subst dom'.
    destruct (Hall x Hin) as [v Hv]. congruence.
Qed.

Lemma foldl_prune_lookup dm l reg k d :
  foldl (prune dm) reg l !! k = Some d ↔
  reg !! k = Some d ∧ ∀ d', (k, d') ∈ l → stale dm d' = false.
Proof.
  revert reg. induction l as [|[k0 d0] l IH]; intros reg; simpl.
  - split; [|tauto]. intros Hk. split; [done|]. intros d' Hin.
    by apply elem_of_nil in Hin.
  - rewrite IH. unfold prune, dr.async_remove_device. simpl.
    destruct (stale dm d0) eqn:Hs.
    + rewrite lookup_delete_Some. split.
      * intros [[Hne Hk] Hl]. split; [done|]. intros d' Hin.
        apply elem_of_cons in Hin as [Heq|Hin]; [congruence|eauto].
      * intros [Hk Hl]. split.
        -- split; [|done]. intros ->.
           specialize (Hl d0 ltac:(left)). congruence.
        -- intros d' Hin. apply Hl. by right.
    + split.
      * intros [Hk Hl]. split; [done|]. intros d' Hin.
        apply elem_of_cons in Hin as [Heq|Hin]; [congruence|eauto].
      * intros [Hk Hl]. split; [done|]. intros d' Hin. apply Hl. by right.
Qed.

(** Pruning every item of a registry leaves the entries that are not
    stale. *)
Lemma prune_all dm (reg : dr.devices) :
  foldl (prune dm) reg (map_to_list reg) =
  filter (λ kd : nat * dr.DeviceEntry, stale dm kd.2 = false) reg.
Proof.
  apply map_eq. intros k. apply option_eq. intros d.
  rewrite foldl_prune_lookup, map_lookup_filter_Some. simpl. split.
  - intros [Hk Hl]. split; [done|]. apply Hl. by apply elem_of_map_to_list.
  - intros [Hk Hs]. split; [done|]. intros d' Hin.
    apply elem_of_map_to_list in Hin. congruence.
Qed.

Lemma set_device_registry_id h : set_device_registry (device_registry h) h = h.
Proof. by destruct h. Qed.

Lemma cleanup_loop m l h :
  for_ l (λ kd : nat * dr.DeviceEntry,
            h' ← get;
            if stale (Manager.device_map (managers h' m)) kd.2
            then host.device_registry_update (dr.async_remove_device kd.1)
            else mret ()) h
  = (Ok (), set_device_registry
              (foldl (prune (Manager.device_map (managers h m))) (device_registry h) l) h).
Proof.
  revert h. induction l as [|[k d] l IH]; intros h; simpl.
  - by rewrite set_device_registry_id.
  - rewrite bind_run. unfold mbind at 1, M_bind at 1, get at 1. simpl.
    unfold prune at 2. simpl.
    destruct (stale _ d).
    + unfold host.device_registry_update, modify. by rewrite IH.
    + unfold mret at 1, M_ret at 1. by rewrite IH.
Qed.

Lemma cleanup_device_registry_spec m h :
  cleanup_device_registry m h =
    (Ok (), set_device_registry
              (filter (λ kd : nat * dr.DeviceEntry,
                         stale (Manager.device_map (managers h m)) kd.2 = false)
                      (device_registry h)) h).
Proof.
  unfold cleanup_device_registry. rewrite bind_run. unfold get at 1.
  by rewrite cleanup_loop, prune_all.
Qed.

Lemma register_loop entry (l : list (string * CustomerDevice.t)) h :
  for_ l (λ kd, register_device entry kd.2) h
  = (Ok (), set_device_registry (foldl (register entry) (device_registry h) l.*2) h).
Proof.
  revert h. induction l as [|[k d] l IH]; intros h; simpl.
  - by rewrite set_device_registry_id.
  - rewrite bind_run. unfold register_device at 1, host.device_registry_update, modify.
    by rewrite IH.
Qed.

Lemma registered_ids_register entry reg device :
  registered_ids (register entry reg device) =
  registered_ids reg ∪ {[ CustomerDevice.id device ]}.
Proof.
  apply set_eq. intros x.
  rewrite elem_of_union, elem_of_singleton, !elem_of_registered_ids.
  unfold register, dr.async_get_or_create.
  destruct (dr.async_get_device reg _) as [[k d]|] eqn:E; simpl.
  - apply async_get_device_Some in E as [Hk Hm]. apply matches_singleton in Hm.
    split.
    + intros (k' & d' & Hk' & Hin).
      apply lookup_insert_Some in Hk' as [[<- <-]|[Hne Hk']]; simpl in *.
      * apply elem_of_union in Hin as [Hin|Hin]; [left; by eauto|].
        apply elem_of_singleton in Hin. right. congruence.
      * left. eauto.
    + intros [(k' & d' & Hk' & Hin)| ->].
      * destruct (decide (k = k')) as [<-|Hne].
        -- eexists k, _. rewrite lookup_insert_eq. split; [done|]. simpl.
           assert (d' = d) as -> by congruence. set_solver.
        -- exists k', d'. by rewrite lookup_insert_ne.
      * eexists k, _. rewrite lookup_insert_eq. split; [done|]. simpl. set_solver.
  - assert (reg !! fresh (dom reg) = None) as Hfresh
      by apply not_elem_of_dom, is_fresh.
    split.
    + intros (k' & d' & Hk' & Hin).
      apply lookup_insert_Some in Hk' as [[<- <-]|[Hne Hk']]; simpl in *.
      * right. set_solver.
      * left. eauto.
    + intros [(k' & d' & Hk' & Hin)| ->].
      * exists k', d'. rewrite lookup_insert_ne; [done|]. intros Heq. congruence.
      * eexists _, _. rewrite lookup_insert_eq. split; [done|]. simpl. set_solver.
Qed.

Lemma registered_ids_register_all entry (ds : list CustomerDevice.t) reg :
  registered_ids (foldl (register entry) reg ds) =
  registered_ids reg ∪ list_to_set (CustomerDevice.id <$> ds).
Proof.
  revert reg. induction ds as [|d ds IH]; intros reg; simpl.
  - set_solver.
  - rewrite IH, registered_ids_register. set_solver.
Qed.

(** After pruning, every device id left in the registry is a key of the
    device map. *)
Lemma registered_ids_pruned dm (reg : dr.devices) :
  registered_ids
    (filter (λ kd : nat * dr.DeviceEntry, stale dm kd.2 = false) reg) ⊆ dom dm.
Proof.
  intros x Hx. apply elem_of_registered_ids in Hx as (k & d & Hk & Hin).
  apply map_lookup_filter_Some in Hk as [Hk Hs]. simpl in Hs.
  apply elem_of_dom. by eapply stale_false.
Qed.

Lemma keyed_by_id_ids dm :
  keyed_by_id dm →
  list_to_set (CustomerDevice.id <$> (map_to_list dm).*2) =@{gset string} dom dm.
Proof.
  intros Hkeyed. apply set_eq. intros x.
  rewrite elem_of_list_to_set, list_elem_of_fmap, elem_of_dom. split.
  - intros (d & -> & Hd).
    apply list_elem_of_fmap in Hd as ([k d'] & -> & Hkd).
    apply elem_of_map_to_list in Hkd. simpl.
    by rewrite (Hkeyed k d' Hkd).
  - intros [d Hd]. exists d. split; [by rewrite (Hkeyed x d Hd)|].
    apply list_elem_of_fmap. exists (x, d). split; [done|].
    by apply elem_of_map_to_list.
Qed.

Lemma new_session_Ok entry d h m hp :
  new_session entry d h = (Ok m, hp) →
  m = next_manager h ∧
  session_of hp entry = Some {| manager := m; listener := next_listener h |}.
Proof.
  unfold new_session, sdk.Manager_init, DeviceListener_init,
    sdk.add_device_listener, sdk.update_manager, store_session, session_of.
  run.
  destruct (d !! CONF_USER_CODE); simpl; [|by inversion 1].
  destruct (d !! CONF_TERMINAL_ID); simpl; [|by inversion 1].
  destruct (d !! CONF_ENDPOINT); simpl; [|by inversion 1].
  destruct (d !! CONF_TOKEN_INFO); simpl; [|by inversion 1].
  destruct (data h !! DOMAIN) as [ns|]; simpl; [|by inversion 1].
  inversion 1; subst; simpl. split; [done|].
  rewrite lookup_insert_eq. simpl. by rewrite lookup_insert_eq.
Qed.

(** A setup that returns went through [setup_steps] with the manager of
    the session stored for the entry. *)
Lemma async_setup_entry_Ok env entry h b h' :
  async_setup_entry env entry h = (Ok b, h') →
  ∃ tuya hp,
    session_of hp entry = Some tuya ∧
    setup_steps env entry (manager tuya) hp = (Ok b, h').
Proof.
  rewrite async_setup_entry_blocks, bind_run.
  destruct (setdefault_domain h) as [[[]|e0] h1]; [|by inversion 1].
  rewrite bind_run. unfold get at 1.
  destruct (bool_decide _); [by inversion 1|].
  rewrite bind_run. unfold getitem at 1, session_of.
  destruct (data h1 !! DOMAIN) as [ns|] eqn:Hns; [|by inversion 1].
  unfold mret at 1, M_ret at 1. rewrite bind_run.
  destruct (ns !! entry) as [tuya|] eqn:Hs.
  - unfold mret at 1, M_ret at 1. intros Hsteps.
    exists tuya, h1. split; [|done]. rewrite Hns. simpl. done.
  - destruct (new_session entry (entries h1 entry) h1) as [[m|e0] hp] eqn:Hnew;
      [|by inversion 1].
    apply new_session_Ok in Hnew as [-> Hstored]. intros Hsteps.
    by exists {| manager := next_manager h1; listener := next_listener h1 |}, hp.
Qed.

(** What [setup_steps] has done when it returns: the manager holds the
    refreshed device map, and the registry is the pruned one with every
    device of the map registered. *)
Lemma setup_steps_Ok env entry m hp b h' :
  setup_steps env entry m hp = (Ok b, h') →
  ∃ dm,
    refreshed_device_map env = inr dm ∧
    Manager.device_map (managers h' m) = dm ∧
    data h' = data hp ∧
    device_registry h' =
      foldl (register entry)
        (filter (λ kd : nat * dr.DeviceEntry, stale dm kd.2 = false)
                (device_registry hp))
        (map_to_list dm).*2.
Proof.
  unfold setup_steps. rewrite bind_run, report_version_spec.
  destruct (integration env) as [e0|mf]; [by inversion 1|].
  destruct (sharing_sdk_of _ _) as [v|e1]; [|by inversion 1].
  destruct (report_version_raises env); [by inversion 1|].
  rewrite bind_run.
  unfold sdk.update_device_cache at 1. rewrite bind_run.
  unfold emit at 1, modify at 1.
  destruct (refreshed_device_map env) as [e2|dm]; [by inversion 1|].
  unfold sdk.update_manager at 1, modify at 1.
  rewrite bind_run, cleanup_device_registry_spec.
  rewrite bind_run. unfold get at 1.
  rewrite bind_run, register_loop.
  rewrite bind_run.
  unfold host.async_forward_entry_setups, sdk.refresh_mq, sdk.update_manager.
  run. rewrite !fn_lookup_insert. simpl.
  destruct (forward_entry_setups_raises env); simpl; [by inversion 1|].
  destruct (refresh_mq_raises env); simpl; [by inversion 1|].
  inversion 1; subst; simpl. exists dm.
  rewrite !fn_lookup_insert. simpl. done.
Qed.

(** C1. When [async_setup_entry] returns, the session stored for the
    entry has a manager whose device map is the one the refresh produced,
    and the device ids carried under this domain by entries of the host
    registry are exactly the device ids of that map, whatever the registry
    held before: entries naming an id absent from the map were removed, and
    every id of the map has an entry.  The device map is keyed by device id,
    as the vendor builds it. *)
Theorem setup_registry_matches_device_map env entry h h' dm :
  async_setup_entry env entry h = (Ok true, h') →
  refreshed_device_map env = inr dm →
  keyed_by_id dm →
  ∃ tuya,
    session_of h' entry = Some tuya ∧
    Manager.device_map (managers h' (manager tuya)) = dm ∧
    registered_ids (device_registry h') = dom dm.
Proof.
  intros Hok Henv Hkeyed.
  apply async_setup_entry_Ok in Hok as (tuya & hp & Hs & Hsteps).
  apply setup_steps_Ok in Hsteps as (dm' & Henv' & Hdm & Hdata & Hreg).
  assert (dm' = dm) as -> by congruence.
  exists tuya. split; [|split; [done|]].
  - unfold session_of in *. by rewrite Hdata.
  - rewrite Hreg, registered_ids_register_all, (keyed_by_id_ids dm Hkeyed).
    pose proof (registered_ids_pruned dm (device_registry hp)). set_solver.
Qed.

(** *** The registry invariant is kept by this module *)

#[local] Instance keeps_unique_preorder : PreOrder keeps_unique.
Proof. split; unfold keeps_unique; [intros h|intros h1 h2 h3]; tauto. Qed.

Lemma keeps_unique_modify f :
  (∀ h, device_registry (f h) = device_registry h) → frames keeps_unique (modify f).
Proof. intros Hf. apply frames_modify. intros h Hu. by rewrite Hf. Qed.

Lemma keeps_unique_registry_update f :
  (∀ reg, unique_identifiers reg → unique_identifiers (f reg)) →
  frames keeps_unique (host.device_registry_update f).
Proof. intros Hf. apply frames_modify. intros h Hu. by apply Hf. Qed.

Ltac frame_unique :=
  repeat first
    [ apply keeps_unique_registry_update; intros ? ?;
        first [ by apply unique_identifiers_delete
              | by apply unique_identifiers_get_or_create ]
    | apply keeps_unique_modify; intros ?;
        first [ done | by destruct (data _ !! DOMAIN) ]
    | frame_step keeps_unique
    | progress cbv zeta ].

Lemma setup_keeps_unique_identifiers env entry :
  frames keeps_unique (async_setup_entry env entry).
Proof.
  unfold async_setup_entry, setdefault_domain, report_version,
    cleanup_device_registry, register_device,
    sdk.Manager_init, DeviceListener_init, store_session,
    sdk.add_device_listener, sdk.update_device_cache, sdk.refresh_mq,
    sdk.report_version, sdk.update_manager,
    host.async_get_integration, host.async_forward_entry_setups, emit.
  frame_unique.
Qed.

Lemma listener_removal_keeps_unique_identifiers self device_id :
  frames keeps_unique (async_remove_device self device_id).
Proof. unfold async_remove_device, emit. frame_unique. Qed.

(** *** The registry clean-up on its own *)

(** X1. [cleanup_device_registry] always returns and changes nothing but
    the registry.  An entry is still there afterwards exactly when it was
    there before and every identifier it carries under this domain names a
    device of the manager's device map; so an entry with one missing device
    goes even if it also names known ones, whichever config entry it belongs
    to, and entries without an identifier of this domain all stay. *)
Theorem cleanup_removes_exactly_stale_entries m h :
  let dm := Manager.device_map (managers h m) in
  let r := cleanup_device_registry m h in
  r.1 = Ok () ∧
  r.2 = set_device_registry (device_registry r.2) h ∧
  ∀ k d, device_registry r.2 !! k = Some d ↔
         device_registry h !! k = Some d ∧
         ∀ x, (DOMAIN, x) ∈ dr.identifiers d → is_Some (dm !! x).
Proof.
  simpl. rewrite cleanup_device_registry_spec. simpl.
  split; [done|]. split; [done|]. intros k d.
  rewrite map_lookup_filter_Some. simpl. by rewrite stale_false.
Qed.

(** X2. Cleaning up twice is cleaning up once, and a registry in which
    every device id of this domain is a key of the device map is left as
    it is. *)
Theorem cleanup_idempotent m h :
  let once := (cleanup_device_registry m h).2 in
  cleanup_device_registry m once = (Ok (), once) ∧
  (registered_ids (device_registry h) ⊆ dom (Manager.device_map (managers h m)) →
   once = h).
Proof.
  simpl. rewrite !cleanup_device_registry_spec. simpl. split.
  - f_equal. unfold set_device_registry. simpl. f_equal.
    apply map_eq. intros k. apply option_eq. intros d.
    rewrite !map_lookup_filter_Some. simpl. tauto.
  - intros Hsub.
    transitivity (set_device_registry (device_registry h) h);
      [|apply set_device_registry_id].
    f_equal. apply map_eq. intros k. apply option_eq. intros d.
    rewrite map_lookup_filter_Some. simpl. split; [tauto|].
    intros Hk. split; [done|]. apply stale_false. intros x Hin.
    apply elem_of_dom, Hsub, elem_of_registered_ids. eauto.
Qed.

(** *** Removal through the listener, when there is something to remove *)

Lemma async_get_device_unregistered reg device_id :
  dr.async_get_device reg {[ (DOMAIN, device_id) ]} = None ↔
  unregistered reg device_id.
Proof.
  rewrite async_get_device_None. unfold unregistered, map_Forall.
  split; intros Hno k d Hk; specialize (Hno k d Hk);
    by rewrite matches_singleton in *.
Qed.

Lemma delete_unregistered reg k d device_id :
  unique_identifiers reg →
  reg !! k = Some d → (DOMAIN, device_id) ∈ dr.identifiers d →
  unregistered (delete k reg) device_id.
Proof.
  rewrite unique_identifiers_spec. intros Hu Hk Hin k' d' Hk' Hin'.
  apply lookup_delete_Some in Hk' as [Hne Hk']. apply Hne. eauto.
Qed.

(** X3. When some entry carries the identifier, [async_remove_device] of
    the listener removes one entry that carries it and no other: the
    registry afterwards is the old one without that entry.  In a registry
    with unique identifiers no entry carries the identifier any more. *)
Theorem listener_removal_removes_entry self device_id h :
  ¬ unregistered (device_registry h) device_id →
  let r := async_remove_device self device_id h in
  ∃ k d,
    device_registry h !! k = Some d ∧
    (DOMAIN, device_id) ∈ dr.identifiers d ∧
    device_registry r.2 = delete k (device_registry h) ∧
    (unique_identifiers (device_registry h) →
     unregistered (device_registry r.2) device_id).
Proof.
  intros Hsome. simpl. rewrite async_remove_device_spec. simpl.
  destruct (dr.async_get_device _ _) as [[k d]|] eqn:E.
  - apply async_get_device_Some in E as [Hk Hm]. apply matches_singleton in Hm.
    exists k, d. simpl. repeat split; try done.
    intros Hu. by eapply delete_unregistered.
  - by apply async_get_device_unregistered in E.
Qed.

(** X4. [add_device] returns without touching the registry: it queues
    the removal of a stale entry behind whatever is queued and sends the
    discovery signal with the device id at once.  When the queued job runs
    (the queue being empty before), nothing is added to the registry, and
    with unique identifiers no entry carries the device's identifier any
    more; so the stale entry goes only after the discovery signal. *)
Theorem add_device_signals_then_removes self device h :
  let device_id := CustomerDevice.id device in
  let h1 := (add_device self device h).2 in
  let h2 := (run_next_job h1).2 in
  (add_device self device h).1 = Ok () ∧
  device_registry h1 = device_registry h ∧
  jobs h1 = jobs h ++ [{| job_listener := self; job_device_id := device_id |}] ∧
  trace h1 = trace h ++ [AddJob self device_id;
                         DispatcherSend TUYA_DISCOVERY_NEW [[device_id]]] ∧
  (jobs h = [] →
   (run_next_job h1).1 = Ok () ∧
   jobs h2 = [] ∧
   trace h2 = trace h1 ++ [LoggerDebug "Remove device: %s"] ∧
   (∀ k d, device_registry h2 !! k = Some d → device_registry h !! k = Some d) ∧
   (unique_identifiers (device_registry h) →
    unregistered (device_registry h2) device_id)).
Proof.
  simpl. unfold add_device, host.add_job, host.dispatcher_send. run.
  split; [done|]. split; [done|]. split; [done|].
  split; [by rewrite <- app_assoc|].
  intros Hjobs. unfold run_next_job. run. rewrite Hjobs. simpl.
  rewrite !async_remove_device_spec. simpl.
  split; [done|]. split; [done|]. split; [done|]. split.
  - intros k d. destruct (dr.async_get_device _ _) as [[k0 d0]|]; simpl; [|done].
    unfold dr.async_remove_device. rewrite lookup_delete_Some. tauto.
  - intros Hu.
    destruct (dr.async_get_device _ _) as [[k0 d0]|] eqn:E; simpl.
    + apply async_get_device_Some in E as [Hk Hm]. apply matches_singleton in Hm.
      by eapply delete_unregistered.
    + by apply async_get_device_unregistered.
Qed.

(** X5. [remove_device] only queues the removal; the registry changes when
    the job runs, and then (the queue being empty before, identifiers being
    unique) no entry carries the identifier and no other entry is lost. *)
Theorem remove_device_is_deferred self device_id h :
  let h1 := (remove_device self device_id h).2 in
  let h2 := (run_next_job h1).2 in
  (remove_device self device_id h).1 = Ok () ∧
  device_registry h1 = device_registry h ∧
  jobs h1 = jobs h ++ [{| job_listener := self; job_device_id := device_id |}] ∧
  (jobs h = [] →
   jobs h2 = [] ∧
   (unique_identifiers (device_registry h) →
    unregistered (device_registry h2) device_id) ∧
   (∀ k d, device_registry h !! k = Some d →
           (DOMAIN, device_id) ∉ dr.identifiers d →
           device_registry h2 !! k = Some d)).
Proof.
  simpl. unfold remove_device, host.add_job. run.
  split; [done|]. split; [done|]. split; [done|].
  intros Hjobs. unfold run_next_job. run. rewrite Hjobs. simpl.
  rewrite !async_remove_device_spec. simpl.
  split; [done|]. split.
  - intros Hu.
    destruct (dr.async_get_device _ _) as [[k0 d0]|] eqn:E; simpl.
    + apply async_get_device_Some in E as [Hk Hm]. apply matches_singleton in Hm.
      by eapply delete_unregistered.
    + by apply async_get_device_unregistered.
  - intros k d Hk Hnot.
    destruct (dr.async_get_device _ _) as [[k0 d0]|] eqn:E; simpl; [|done].
    apply async_get_device_Some in E as [Hk0 Hm]. apply matches_singleton in Hm.
    unfold dr.async_remove_device. apply lookup_delete_Some. split; [|done].
    intros ->. congruence.
Qed.

(** *** The version report *)

Lemma prefix_nil s : String.prefix "" s = true.
Proof. by destruct s. Qed.

Lemma prefix_String a pat b s :
  String.prefix (String a pat) (String b s) =
    match Ascii.ascii_dec a b with
    | left _ => String.prefix pat s
    | right _ => false
    end.
Proof. reflexivity. Qed.

Lemma append_String c s t : String c s +:+ t = String c (s +:+ t).
Proof. reflexivity. Qed.

Lemma append_nil_r s : s +:+ "" = s.
Proof.
  induction s as [|c s IH]; [reflexivity|]. by rewrite append_String, IH.
Qed.

Lemma append_snoc cur c s : (cur +:+ String c "") +:+ s = cur +:+ String c s.
Proof.
  induction cur as [|a cur IH]; [reflexivity|]. by rewrite !append_String, IH.
Qed.

Lemma str_contains_String pat c s :
  str_contains pat (String c s) = String.prefix pat (String c s) || str_contains pat s.
Proof. reflexivity. Qed.

Lemma split_from_String sep cur c s :
  split_from sep 0 cur (String c s) =
    if String.prefix sep (String c s)
    then cur :: split_from sep (String.length sep - 1) "" s
    else split_from sep 0 (cur +:+ String c "") s.
Proof. reflexivity. Qed.

(** A string without the separator is one piece. *)
Lemma split_from_no_sep sep s cur :
  str_contains sep s = false → split_from sep 0 cur s = [cur +:+ s].
Proof.
  revert cur. induction s as [|c s IH]; intros cur Hno.
  - simpl. by rewrite append_nil_r.
  - rewrite str_contains_String in Hno. apply orb_false_elim in Hno as [Hp Hs].
    rewrite split_from_String, Hp, IH by done. by rewrite append_snoc.
Qed.

(** [name==ver] splits into [name] and [ver]. *)
Lemma split_from_pinned name ver cur :
  str_contains "=" name = false → str_contains "==" ver = false →
  split_from "==" 0 cur (name +:+ "==" +:+ ver) = [cur +:+ name; ver].
Proof.
  intros Hname Hver. revert cur. induction name as [|c name IH]; intros cur.
  - change ("" +:+ "==" +:+ ver) with ("==" +:+ ver).
    rewrite !append_String, split_from_String. simpl.
    rewrite prefix_nil, append_nil_r.
    change ("" +:+ ver) with ver.
    by rewrite (split_from_no_sep "==" ver "").
  - rewrite str_contains_String in Hname.
    apply orb_false_elim in Hname as [Hp Hs].
    change ((String c name) +:+ "==" +:+ ver)
      with (String c (name +:+ "==" +:+ ver)).
    rewrite split_from_String.
    assert (String.prefix "==" (String c (name +:+ "==" +:+ ver)) = false) as ->.
    { revert Hp. rewrite !prefix_String.
      destruct (Ascii.ascii_dec _ c); [|done]. by rewrite prefix_nil. }
    rewrite IH by done. by rewrite append_snoc.
Qed.

Lemma prefix_append pat s t :
  String.prefix pat s = true → String.prefix pat (s +:+ t) = true.
Proof.
  revert s. induction pat as [|a pat IH]; intros s Hp; [apply prefix_nil|].
  destruct s as [|b s]; [done|]. rewrite append_String. simpl in *.
  destruct (Ascii.ascii_dec a b); [by apply IH|done].
Qed.

Lemma str_contains_append pat s t :
  str_contains pat s = true → str_contains pat (s +:+ t) = true.
Proof.
  induction s as [|c s IH]; intros Hc.
  - simpl in Hc. rewrite orb_false_r in Hc.
    destruct pat; [|done]. by destruct t.
  - change (String c s +:+ t) with (String c (s +:+ t)).
    rewrite str_contains_String in *.
    apply orb_true_iff in Hc as [Hp|Hs].
    + apply (prefix_append _ _ t) in Hp. rewrite append_String in Hp.
      by rewrite Hp.
    + rewrite IH by done. apply orb_true_r.
Qed.

Lemma sharing_sdk_of_skip items acc :
  Forall (λ item, str_contains "device-sharing-sdk" item = false) items →
  sharing_sdk_of items acc = Ok acc.
Proof.
  induction 1 as [|item items Hitem _ IH]; simpl; [done|]. by rewrite Hitem.
Qed.

Lemma sharing_sdk_of_app l1 l2 acc :
  sharing_sdk_of (l1 ++ l2) acc =
    match sharing_sdk_of l1 acc with
    | Ok v => sharing_sdk_of l2 v
    | Raise e => Raise e
    end.
Proof.
  revert acc. induction l1 as [|item l1 IH]; intros acc; simpl; [done|].
  destruct (str_contains _ item); [|apply IH].
  destruct (str_split "==" item !! 1%nat); [apply IH|done].
Qed.

Lemma sharing_sdk_of_unpinned items item acc :
  item ∈ items →
  str_contains "device-sharing-sdk" item = true →
  str_contains "==" item = false →
  sharing_sdk_of items acc = Raise IndexError.
Proof.
  intros Hin Hsdk Hno. revert acc.
  induction items as [|item0 items IH]; intros acc; [by apply elem_of_nil in Hin|].
  apply elem_of_cons in Hin as [<-|Hin]; simpl.
  - rewrite Hsdk. unfold str_split. by rewrite split_from_no_sep.
  - destruct (str_contains _ item0); [|by apply IH].
    destruct (str_split "==" item0 !! 1%nat); [by apply IH|done].
Qed.

(** X6. A requirement that names the SDK without ["=="] (a version
    range, say) makes [report_version] raise [IndexError] after it has
    fetched the integration: nothing is reported to the vendor, whatever the
    other requirements are. *)
Theorem report_version_unpinned_sdk_raises env m h mf items item :
  integration env = inr mf →
  requirements mf = Some items →
  item ∈ items →
  str_contains "device-sharing-sdk" item = true →
  str_contains "==" item = false →
  report_version env m h = (Raise IndexError, log_events [GetIntegration DOMAIN] h).
Proof.
  intros Hint Hreq Hin Hsdk Hno.
  rewrite report_version_spec, Hint, Hreq. simpl.
  by rewrite (sharing_sdk_of_unpinned items item "" Hin Hsdk Hno).
Qed.

(** X7. With exactly one requirement naming the SDK, pinned as
    [name==ver], [report_version] sends the host version, the manifest's
    version (["unknown"] without one) and [ver] to the vendor, and returns
    or raises as that call does. *)
Theorem report_version_sends_pinned_sdk env m h mf before after name ver :
  integration env = inr mf →
  requirements mf = Some (before ++ (name +:+ "==" +:+ ver) :: after) →
  Forall (λ item, str_contains "device-sharing-sdk" item = false) before →
  Forall (λ item, str_contains "device-sharing-sdk" item = false) after →
  str_contains "device-sharing-sdk" name = true →
  str_contains "=" name = false →
  str_contains "==" ver = false →
  report_version env m h =
    (match report_version_raises env with
     | None => Ok ()
     | Some e => Raise e
     end,
     log_events [GetIntegration DOMAIN;
                 ReportVersion m __version__ (default "unknown" (version mf)) ver] h).
Proof.
  intros Hint Hreq Hbefore Hafter Hsdk Hname Hver.
  rewrite report_version_spec, Hint, Hreq. simpl.
  rewrite sharing_sdk_of_app, (sharing_sdk_of_skip before "" Hbefore). simpl.
  rewrite (str_contains_append _ name ("==" +:+ ver) Hsdk).
  unfold str_split. rewrite (split_from_pinned name ver "" Hname Hver). simpl.
  by rewrite (sharing_sdk_of_skip after ver Hafter).
Qed.

(** X8. When no requirement names the SDK, and also when the manifest has
    no requirements at all (the default ["unknown"] is then walked
    character by character), the SDK version reported is the empty
    string. *)
Theorem report_version_without_sdk_requirement env m h mf :
  integration env = inr mf →
  match requirements mf with
  | Some items => Forall (λ item, str_contains "device-sharing-sdk" item = false) items
  | None => True
  end →
  report_version env m h =
    (match report_version_raises env with
     | None => Ok ()
     | Some e => Raise e
     end,
     log_events [GetIntegration DOMAIN;
                 ReportVersion m __version__ (default "unknown" (version mf)) ""] h).
Proof.
  intros Hint Hreq. rewrite report_version_spec, Hint.
  destruct (requirements mf) as [items|]; simpl.
  - by rewrite (sharing_sdk_of_skip items "" Hreq).
  - done.
Qed.

(** *** The two ways into the setup steps *)

Lemma setup_with_session env entry h tuya :
  session_of h entry = Some tuya →
  entries h entry !! CONF_APP_TYPE = None →
  async_setup_entry env entry h = setup_steps env entry (manager tuya) h.
Proof.
  unfold session_of. intros Hs Hlegacy.
  destruct (data h !! DOMAIN) as [ns|] eqn:Hns; simpl in Hs; [|done].
  rewrite async_setup_entry_blocks, bind_run, (setdefault_domain_present h ns Hns).
  rewrite bind_run. unfold get at 1.
  rewrite Hlegacy, bool_decide_eq_false_2 by (by intros [? ?]).
  rewrite bind_run. unfold getitem at 1. rewrite Hns.
  unfold mret at 1, M_ret at 1. rewrite bind_run, Hs. done.
Qed.

Lemma setdefault_domain_lookup h :
  ∃ ns, data (setdefault_domain h).2 !! DOMAIN = Some ns ∧
        ∀ entry, ns !! entry = session_of h entry.
Proof.
  unfold setdefault_domain, modify, session_of. simpl.
  destruct (data h !! DOMAIN) as [ns|] eqn:Hns; simpl.
  - exists ns. by rewrite Hns.
  - exists ∅. rewrite lookup_insert_eq. split; [done|]. intros entry.
    apply lookup_empty.
Qed.

Lemma setdefault_domain_fields h :
  let h1 := (setdefault_domain h).2 in
  setdefault_domain h = (Ok (), h1) ∧
  entries h1 = entries h ∧ device_registry h1 = device_registry h ∧
  managers h1 = managers h ∧ next_manager h1 = next_manager h ∧
  listeners h1 = listeners h ∧ next_listener h1 = next_listener h ∧
  jobs h1 = jobs h ∧ trace h1 = trace h.
Proof.
  unfold setdefault_domain, modify. simpl.
  by destruct (data h !! DOMAIN).
Qed.

Lemma setup_without_session env entry h :
  session_of h entry = None →
  entries h entry !! CONF_APP_TYPE = None →
  async_setup_entry env entry h =
    match new_session entry (entries h entry) (setdefault_domain h).2 with
    | (Ok m, hp) => setup_steps env entry m hp
    | (Raise e, hp) => (Raise e, hp)
    end.
Proof.
  intros Hs Hlegacy.
  destruct (setdefault_domain_lookup h) as (ns & Hns & Hsame).
  destruct (setdefault_domain_fields h) as (Hrun & Hentries & _).
  rewrite async_setup_entry_blocks, bind_run, Hrun.
  rewrite bind_run. unfold get at 1. rewrite Hentries.
  rewrite Hlegacy, bool_decide_eq_false_2 by (by intros [? ?]).
  rewrite bind_run. unfold getitem at 1. rewrite Hns.
  unfold mret at 1, M_ret at 1. rewrite bind_run, Hsame, Hs. done.
Qed.

(** *** Missing credentials *)

Ltac credential_step d k Hfind :=
  rewrite bind_run; unfold getitem at 1;
  destruct (d !! k) eqn:?; simpl in Hfind;
    [ try discriminate Hfind;
      let Heq := fresh "Heq" in
      apply fmap_Some in Hfind as ([? ?] & Hfind & Heq);
      simpl in Heq; inversion Heq; subst; clear Heq;
      unfold mret at 1, M_ret at 1
    | inversion Hfind; subst; reflexivity ].

Lemma new_session_missing entry d h i key :
  list_find (λ k, d !! k = None)
    [CONF_USER_CODE; CONF_TERMINAL_ID; CONF_ENDPOINT; CONF_TOKEN_INFO] = Some (i, key) →
  new_session entry d h = (Raise (KeyError key), h).
Proof.
  intros Hfind. unfold new_session. simpl in Hfind.
  credential_step d CONF_USER_CODE Hfind.
  credential_step d CONF_TERMINAL_ID Hfind.
  credential_step d CONF_ENDPOINT Hfind.
  credential_step d CONF_TOKEN_INFO Hfind.
Qed.

(** X9. For an entry without a stored session and without the legacy
    marker, a credential missing from the entry data makes
    [async_setup_entry] raise [KeyError] for the first missing key, in the
    order user code, terminal id, endpoint, token info.  Apart from the
    [setdefault] of the namespace nothing has happened: no manager, no
    listener, no stored session, no call to a collaborator. *)
Theorem setup_missing_credential env entry h i key :
  session_of h entry = None →
  entries h entry !! CONF_APP_TYPE = None →
  list_find (λ k, entries h entry !! k = None)
    [CONF_USER_CODE; CONF_TERMINAL_ID; CONF_ENDPOINT; CONF_TOKEN_INFO] = Some (i, key) →
  async_setup_entry env entry h = (Raise (KeyError key), (setdefault_domain h).2) ∧
  session_of (setdefault_domain h).2 entry = None ∧
  next_manager (setdefault_domain h).2 = next_manager h ∧
  next_listener (setdefault_domain h).2 = next_listener h ∧
  trace (setdefault_domain h).2 = trace h.
Proof.
  intros Hs Hlegacy Hfind.
  destruct (setdefault_domain_fields h) as (_ & _ & _ & _ & Hm & _ & Hl & _ & Ht).
  split; [|by rewrite setdefault_domain_session].
  rewrite (setup_without_session env entry h Hs Hlegacy).
  by rewrite (new_session_missing entry _ _ i key Hfind).
Qed.

(** *** The first setup of an entry *)

#[local] Instance same_identity_preorder : PreOrder same_identity.
Proof.
  split.
  - intros m. by repeat split.
  - intros m1 m2 m3 (?&?&?&?&?&?&?) (?&?&?&?&?&?&?).
    repeat split; congruence.
Qed.

#[local] Instance managers_kept_preorder : PreOrder managers_kept.
Proof.
  split.
  - intros h m. reflexivity.
  - intros h1 h2 h3 H12 H23 m. etrans; [apply H12|apply H23].
Qed.

Lemma managers_kept_modify f :
  (∀ h, managers (f h) = managers h) → frames managers_kept (modify f).
Proof. intros Hf. apply frames_modify. intros h m. by rewrite Hf. Qed.

Lemma managers_kept_update_manager m f :
  (∀ o, same_identity o (f o)) → frames managers_kept (sdk.update_manager m f).
Proof.
  intros Hf. apply frames_modify. intros h m'. simpl.
  destruct (decide (m = m')) as [<-|Hne].
  - rewrite fn_lookup_insert. apply Hf.
  - by rewrite fn_lookup_insert_ne.
Qed.

Ltac frame_managers :=
  repeat first
    [ apply managers_kept_update_manager; intros ?; by repeat split
    | apply managers_kept_modify; by intros ?
    | frame_step managers_kept
    | progress cbv zeta ].

Lemma managers_kept_setup_steps env entry m :
  frames managers_kept (setup_steps env entry m).
Proof.
  unfold setup_steps, report_version, cleanup_device_registry, register_device,
    sdk.update_device_cache, sdk.refresh_mq, sdk.report_version,
    host.async_get_integration, host.async_forward_entry_setups,
    host.device_registry_update, emit.
  frame_managers.
Qed.

Lemma setup_steps_keep_sessions env entry m :
  frames sessions_kept (setup_steps env entry m).
Proof. apply sessions_kept_setup_steps. Qed.

(** What the [if] branch builds when all four credentials are there. *)
Lemma new_session_creates entry d h ns uc tid ep ti :
  data h !! DOMAIN = Some ns →
  d !! CONF_USER_CODE = Some uc → d !! CONF_TERMINAL_ID = Some tid →
  d !! CONF_ENDPOINT = Some ep → d !! CONF_TOKEN_INFO = Some ti →
  let m := next_manager h in
  let l := next_listener h in
  ∃ hp,
    new_session entry d h = (Ok m, hp) ∧
    data hp = <[DOMAIN := <[entry := {| manager := m; listener := l |}]> ns]> (data h) ∧
    next_manager hp = S m ∧ next_listener hp = S l ∧
    managers hp m =
      {| Manager.client_id := TUYA_CLIENT_ID; Manager.user_code := uc;
         Manager.terminal_id := tid; Manager.endpoint := ep;
         Manager.token_info := ti;
         Manager.token_listener := {| tl_entry := entry |};
         Manager.device_map := ∅; Manager.device_listeners := ∅ ∪ {[ l ]};
         Manager.mq := None |} ∧
    (∀ m', m' ≠ m → managers hp m' = managers h m') ∧
    listeners hp l = {| dl_manager := m |} ∧
    (∀ l', l' ≠ l → listeners hp l' = listeners h l') ∧
    entries hp = entries h ∧ device_registry hp = device_registry h ∧
    trace hp = trace h ++ [ManagerInit m TUYA_CLIENT_ID uc tid ep ti {| tl_entry := entry |};
                           AddDeviceListener m l].
Proof.
  intros Hns Huc Htid Hep Hti. simpl.
  unfold new_session, sdk.Manager_init, DeviceListener_init,
    sdk.add_device_listener, sdk.update_manager, store_session.
  run. rewrite Huc, Htid, Hep, Hti. simpl. rewrite Hns. simpl.
  eexists. split; [reflexivity|]. simpl.
  rewrite !fn_lookup_insert. simpl.
  repeat split; try done.
  - intros m' Hne. by rewrite !fn_lookup_insert_ne.
  - intros l' Hne. by rewrite fn_lookup_insert_ne.
  - by rewrite <- app_assoc.
Qed.

(** X10. The first setup of an entry that has its four credentials and
    no legacy marker builds one manager from them and one device listener:
    whatever the later steps answer, afterwards the session stored for the
    entry is that new pair, the manager holds the client id and the entry's
    credentials, its token listener is bound to this entry, the device
    listener is the only one registered with it and points back to it, and
    the sessions of other entries and the identity of every other manager
    are as before. *)
Theorem setup_creates_session env entry h uc tid ep ti :
  session_of h entry = None →
  entries h entry !! CONF_APP_TYPE = None →
  entries h entry !! CONF_USER_CODE = Some uc →
  entries h entry !! CONF_TERMINAL_ID = Some tid →
  entries h entry !! CONF_ENDPOINT = Some ep →
  entries h entry !! CONF_TOKEN_INFO = Some ti →
  let h' := (async_setup_entry env entry h).2 in
  let m := next_manager h in
  let l := next_listener h in
  session_of h' entry = Some {| manager := m; listener := l |} ∧
  next_manager h' = S m ∧ next_listener h' = S l ∧
  Manager.client_id (managers h' m) = TUYA_CLIENT_ID ∧
  Manager.user_code (managers h' m) = uc ∧
  Manager.terminal_id (managers h' m) = tid ∧
  Manager.endpoint (managers h' m) = ep ∧
  Manager.token_info (managers h' m) = ti ∧
  Manager.token_listener (managers h' m) = {| tl_entry := entry |} ∧
  Manager.device_listeners (managers h' m) = {[ l ]} ∧
  dl_manager (listeners h' l) = m ∧
  (∀ other, other ≠ entry → session_of h' other = session_of h other) ∧
  (∀ m', m' ≠ m → same_identity (managers h m') (managers h' m')).
Proof.
  intros Hs Hlegacy Huc Htid Hep Hti. simpl.
  rewrite (setup_without_session env entry h Hs Hlegacy).
  destruct (setdefault_domain_lookup h) as (ns & Hns & Hsame).
  destruct (setdefault_domain_fields h)
    as (_ & _ & _ & Hms & Hnm & Hls & Hnl & _ & _).
  destruct (new_session_creates entry (entries h entry) (setdefault_domain h).2
              ns uc tid ep ti Hns Huc Htid Hep Hti)
    as (hp & Hrun & Hdata & Hnm' & Hnl' & Hm & Hmo & Hl & Hlo & _).
  rewrite Hrun. rewrite Hnm in *. rewrite Hnl in *.
  pose proof (setup_steps_keep_sessions env entry (next_manager h) hp)
    as (Hd2 & Hnm2 & Hnl2 & Hls2 & _).
  pose proof (managers_kept_setup_steps env entry (next_manager h) hp) as Hk.
  set (h' := (setup_steps env entry (next_manager h) hp).2) in *.
  destruct (Hk (next_manager h)) as (Hc1 & Hc2 & Hc3 & Hc4 & Hc5 & Hc6 & Hc7).
  rewrite Hm in Hc1, Hc2, Hc3, Hc4, Hc5, Hc6, Hc7. simpl in *.
  split.
  { unfold session_of. rewrite Hd2, Hdata, lookup_insert_eq. simpl.
    by rewrite lookup_insert_eq. }
  split; [congruence|]. split; [congruence|].
  do 6 (split; [done|]).
  split; [rewrite Hc7; by rewrite (left_id_L ∅ (∪))|].
  split; [by rewrite Hls2, Hl|].
  split.
  - intros other Hne. unfold session_of at 1.
    rewrite Hd2, Hdata, lookup_insert_eq. simpl.
    by rewrite lookup_insert_ne, Hsame.
  - intros m' Hne. etrans; [|apply Hk]. rewrite Hmo, Hms by done. reflexivity.
Qed.

(** *** From the entry point to the setup steps, with what was built *)

Lemma setup_with_legacy env entry h :
  is_Some (entries h entry !! CONF_APP_TYPE) →
  async_setup_entry env entry h =
    (Raise (ConfigEntryAuthFailed "Authentication failed. Please re-authenticate."),
     (setdefault_domain h).2).
Proof.
  intros Hlegacy.
  destruct (setdefault_domain_fields h) as (Hrun & Hentries & _).
  rewrite async_setup_entry_blocks, bind_run, Hrun.
  rewrite bind_run. unfold get at 1. rewrite Hentries.
  by rewrite bool_decide_eq_true_2.
Qed.

Lemma construction_new_session entry d :
  frames (quiet is_construction) (new_session entry d).
Proof.
  unfold new_session, sdk.Manager_init, DeviceListener_init,
    sdk.add_device_listener, sdk.update_manager, store_session.
  frame_quiet is_construction.
Qed.

Lemma async_setup_entry_reaches_steps env entry h :
  (∃ e0 hp, async_setup_entry env entry h = (Raise e0, hp) ∧
            device_registry hp = device_registry h ∧
            ∃ pre, trace hp = trace h ++ pre ∧
                   Forall (λ e, is_construction e = true) pre) ∨
  (∃ tuya hp pre,
     async_setup_entry env entry h = setup_steps env entry (manager tuya) hp ∧
     session_of hp entry = Some tuya ∧
     device_registry hp = device_registry h ∧
     trace hp = trace h ++ pre ∧
     Forall (λ e, is_construction e = true) pre ∧
     (is_Some (session_of h entry) → pre = [])).
Proof.
  destruct (setdefault_domain_fields h) as (_ & _ & Hreg & _ & _ & _ & _ & _ & Ht).
  destruct (entries h entry !! CONF_APP_TYPE) as [v|] eqn:Hlegacy.
  { left. eexists _, _. split; [apply setup_with_legacy; by rewrite Hlegacy|].
    split; [done|]. exists []. by rewrite app_nil_r. }
  destruct (session_of h entry) as [tuya|] eqn:Hs.
  { right. exists tuya, h, []. rewrite app_nil_r.
    split; [by apply setup_with_session|]. by repeat split. }
  rewrite (setup_without_session env entry h Hs Hlegacy).
  pose proof (construction_new_session entry (entries h entry) (setdefault_domain h).2)
    as (Hreg' & pre & Ht' & Hpre).
  destruct (new_session entry (entries h entry) (setdefault_domain h).2)
    as [[m|e0] hp] eqn:Hnew; cbn [snd] in Hreg', Ht'.
  - right. apply new_session_Ok in Hnew as [-> Hstored].
    exists {| manager := next_manager (setdefault_domain h).2;
              listener := next_listener (setdefault_domain h).2 |}, hp, pre.
    split; [reflexivity|]. split; [exact Hstored|].
    split; [congruence|]. split; [congruence|]. split; [done|].
    by intros [? ?].
  - left. exists e0, hp. split; [done|]. split; [congruence|].
    exists pre. split; [congruence|done].
Qed.

Lemma setup_steps_Ok_calls env entry m hp b h' :
  setup_steps env entry m hp = (Ok b, h') →
  b = true ∧
  Manager.mq (managers h' m) = Some () ∧
  ∃ mf v,
    integration env = inr mf ∧
    trace h' = trace hp ++
      [GetIntegration DOMAIN;
       ReportVersion m __version__ (default "unknown" (version mf)) v;
       UpdateDeviceCache m;
       ForwardEntrySetups entry PLATFORMS;
       RefreshMq m].
Proof.
  unfold setup_steps. rewrite bind_run, report_version_spec.
  destruct (integration env) as [e0|mf]; [by inversion 1|].
  destruct (sharing_sdk_of _ _) as [v|e1]; [|by inversion 1].
  destruct (report_version_raises env); [by inversion 1|].
  rewrite bind_run.
  unfold sdk.update_device_cache at 1. rewrite bind_run.
  unfold emit at 1, modify at 1.
  destruct (refreshed_device_map env) as [e2|dm]; [by inversion 1|].
  unfold sdk.update_manager at 1, modify at 1.
  rewrite bind_run, cleanup_device_registry_spec.
  rewrite bind_run. unfold get at 1.
  rewrite bind_run, register_loop.
  rewrite bind_run.
  unfold host.async_forward_entry_setups, sdk.refresh_mq, sdk.update_manager.
  run.
  destruct (forward_entry_setups_raises env); simpl; [by inversion 1|].
  destruct (refresh_mq_raises env); simpl; [by inversion 1|].
  inversion 1; subst; simpl. split; [done|].
  rewrite !fn_lookup_insert. simpl. split; [done|].
  exists mf, v. split; [done|]. by rewrite <- !app_assoc.
Qed.

(** X11. A setup that returns has returned [True], has called, in this
    order and after at most the construction of the session, the
    integration lookup, the vendor's version report, the device-cache
    refresh, the platform setup and only then the push-channel refresh; the
    manager of the entry's session has its push channel afterwards.  With a
    session stored beforehand these five are all the calls made. *)
Theorem setup_success_calls env entry h b h' :
  async_setup_entry env entry h = (Ok b, h') →
  b = true ∧
  ∃ tuya mf v pre,
    session_of h' entry = Some tuya ∧
    Manager.mq (managers h' (manager tuya)) = Some () ∧
    integration env = inr mf ∧
    events_since h h' = pre ++
      [GetIntegration DOMAIN;
       ReportVersion (manager tuya) __version__ (default "unknown" (version mf)) v;
       UpdateDeviceCache (manager tuya);
       ForwardEntrySetups entry PLATFORMS;
       RefreshMq (manager tuya)] ∧
    Forall (λ e, is_construction e = true) pre ∧
    (is_Some (session_of h entry) → pre = []).
Proof.
  intros Hok.
  destruct (async_setup_entry_reaches_steps env entry h)
    as [(e0 & hp & Heq & _)|(tuya & hp & pre & Heq & Hs & _ & Ht & Hpre & Hnil)];
    rewrite Heq in Hok; [by inversion Hok|].
  pose proof (setup_steps_keep_sessions env entry (manager tuya) hp) as Hkept.
  rewrite Hok in Hkept. simpl in Hkept.
  apply setup_steps_Ok_calls in Hok as (-> & Hmq & mf & v & Hint & Ht').
  split; [done|]. exists tuya, mf, v, pre.
  split; [by rewrite (session_of_kept _ _ _ Hkept)|].
  split; [done|]. split; [done|]. split; [|by split].
  apply events_since_app. by rewrite Ht', Ht, app_assoc.
Qed.

(** *** A failing device-cache refresh *)

Lemma construction_not_after_refresh ev :
  is_construction ev = true → is_after_refresh ev = false.
Proof. by destruct ev. Qed.

Lemma elem_of_after_construction pre tail ev :
  Forall (λ e, is_construction e = true) pre →
  is_construction ev = false →
  ev ∈ pre ++ tail → ev ∈ tail.
Proof.
  intros Hpre Hev Hin. apply elem_of_app in Hin as [Hin|Hin]; [|done].
  rewrite Forall_forall in Hpre. specialize (Hpre ev Hin). congruence.
Qed.

Lemma not_after_refresh_app pre tail :
  Forall (λ e, is_construction e = true) pre →
  Forall (λ ev, is_after_refresh ev = false) tail →
  Forall (λ ev, is_after_refresh ev = false) (pre ++ tail).
Proof.
  intros Hpre Htail. apply Forall_app. split; [|done].
  eapply Forall_impl; [exact Hpre|]. apply construction_not_after_refresh.
Qed.

Lemma setup_steps_cache_failure env entry m hp e :
  refreshed_device_map env = inl e →
  setup_steps env entry m hp =
    match integration env with
    | inl e0 => (Raise e0, log_events [GetIntegration DOMAIN] hp)
    | inr mf =>
      match sharing_sdk_of (default (chars "unknown") (requirements mf)) "" with
      | Raise e1 => (Raise e1, log_events [GetIntegration DOMAIN] hp)
      | Ok v =>
        match report_version_raises env with
        | Some e2 =>
          (Raise e2,
           log_events [GetIntegration DOMAIN;
                       ReportVersion m __version__ (default "unknown" (version mf)) v] hp)
        | None =>
          (Raise e,
           log_events [GetIntegration DOMAIN;
                       ReportVersion m __version__ (default "unknown" (version mf)) v;
                       UpdateDeviceCache m] hp)
        end
      end
    end.
Proof.
  intros Hrefresh. unfold setup_steps. rewrite bind_run, report_version_spec.
  destruct (integration env) as [e0|mf]; [done|].
  destruct (sharing_sdk_of _ _) as [v|e1]; [|done].
  destruct (report_version_raises env) as [e2|]; [done|].
  rewrite bind_run. unfold sdk.update_device_cache at 1.
  rewrite bind_run. unfold emit at 1, modify at 1. rewrite Hrefresh.
  unfold raise at 1, log_events. simpl. by rewrite <- app_assoc.
Qed.

(** X12. When the vendor's device-cache refresh raises, the setup raises:
    the platforms are not set up, the push channel is not opened and the
    device registry is as before.  If the refresh was attempted, the
    exception is the vendor's, and the session of the manager that tried
    stays stored for the entry, so that a later setup reuses it. *)
Theorem device_cache_failure_propagates env entry h e :
  refreshed_device_map env = inl e →
  let r := async_setup_entry env entry h in
  let evs := events_since h r.2 in
  (∃ e', r.1 = Raise e') ∧
  device_registry r.2 = device_registry h ∧
  Forall (λ ev, is_after_refresh ev = false) evs ∧
  (∀ m, UpdateDeviceCache m ∈ evs →
        r.1 = Raise e ∧
        ∃ tuya, session_of r.2 entry = Some tuya ∧ manager tuya = m).
Proof.
  intros Hrefresh. simpl.
  destruct (async_setup_entry_reaches_steps env entry h)
    as [(e0 & hp & Heq & Hreg & pre & Ht & Hpre)
       |(tuya & hp & pre & Heq & Hs & Hreg & Ht & Hpre & _)];
    rewrite Heq; clear Heq.
  - simpl. rewrite (events_since_app h hp pre Ht).
    split; [by eauto|]. split; [done|]. split.
    + rewrite <- (app_nil_r pre). by apply not_after_refresh_app.
    + intros m Hin. rewrite <- (app_nil_r pre) in Hin.
      apply elem_of_after_construction in Hin; [|done..].
      by apply elem_of_nil in Hin.
  - rewrite (setup_steps_cache_failure env entry (manager tuya) hp e Hrefresh).
    destruct (integration env) as [e0|mf];
      [|destruct (sharing_sdk_of _ _) as [v|e1];
        [destruct (report_version_raises env) as [e2|]|]]; simpl.
    + rewrite (events_since_app h _ (pre ++ [GetIntegration DOMAIN]))
        by (simpl; by rewrite Ht, app_assoc).
      split; [by eauto|]. split; [done|]. split.
      * apply not_after_refresh_app; [done|by repeat constructor].
      * intros m Hin. apply elem_of_after_construction in Hin; [|done..].
        by apply list_elem_of_singleton in Hin.
    + rewrite (events_since_app h _
                 (pre ++ [GetIntegration DOMAIN;
                          ReportVersion (manager tuya) __version__
                            (default "unknown" (version mf)) v]))
        by (simpl; by rewrite Ht, app_assoc).
      split; [by eauto|]. split; [done|]. split.
      * apply not_after_refresh_app; [done|by repeat constructor].
      * intros m Hin. apply elem_of_after_construction in Hin; [|done..].
        apply elem_of_cons in Hin as [?|Hin]; [done|].
        by apply list_elem_of_singleton in Hin.
    + rewrite (events_since_app h _
                 (pre ++ [GetIntegration DOMAIN;
                          ReportVersion (manager tuya) __version__
                            (default "unknown" (version mf)) v;
                          UpdateDeviceCache (manager tuya)]))
        by (simpl; by rewrite Ht, <- !app_assoc).
      split; [by eauto|]. split; [done|]. split.
      * apply not_after_refresh_app; [done|by repeat constructor].
      * intros m Hin. apply elem_of_after_construction in Hin; [|done..].
        apply elem_of_cons in Hin as [?|Hin]; [done|].
        apply elem_of_cons in Hin as [?|Hin]; [done|].
        apply list_elem_of_singleton in Hin. inversion Hin; subst.
        split; [done|]. exists tuya. split; [exact Hs|done].
    + rewrite (events_since_app h _ (pre ++ [GetIntegration DOMAIN]))
        by (simpl; by rewrite Ht, app_assoc).
      split; [by eauto|]. split; [done|]. split.
      * apply not_after_refresh_app; [done|by repeat constructor].
      * intros m Hin. apply elem_of_after_construction in Hin; [|done..].
        by apply list_elem_of_singleton in Hin.
Qed.

(** *** What the registration loop leaves in the registry *)

Lemma register_lookup entry reg device :
  ∃ k d0,
    (reg !! k = Some d0 ∧ (DOMAIN, CustomerDevice.id device) ∈ dr.identifiers d0 ∨
     reg !! k = None ∧ d0 = dr.new_entry) ∧
    register entry reg device =
      <[k := {| dr.identifiers := dr.identifiers d0 ∪ {[ (DOMAIN, CustomerDevice.id device) ]};
                dr.config_entries := dr.config_entries d0 ∪ {[ entry ]};
                dr.manufacturer := Some "Tuya";
                dr.name := Some (CustomerDevice.name device);
                dr.model := Some (CustomerDevice.product_name device +:+ " (unsupported)") |}]> reg.
Proof.
  unfold register, dr.async_get_or_create.
  destruct (dr.async_get_device reg _) as [[k d]|] eqn:E; simpl.
  - apply async_get_device_Some in E as [Hk Hm]. apply matches_singleton in Hm.
    exists k, d. split; [by left|done].
  - exists (fresh (dom reg)), dr.new_entry. split; [|done]. right.
    split; [|done]. apply not_elem_of_dom, is_fresh.
Qed.

Lemma register_establishes entry reg device :
  ∃ k d, register entry reg device !! k = Some d ∧
         registered_for entry (CustomerDevice.id device) d ∧
         dr.name d = Some (CustomerDevice.name device) ∧
         dr.model d = Some (CustomerDevice.product_name device +:+ " (unsupported)").
Proof.
  destruct (register_lookup entry reg device) as (k & d0 & _ & ->).
  eexists k, _. rewrite lookup_insert_eq. split; [done|].
  unfold registered_for. simpl. repeat split; set_solver.
Qed.

Lemma register_preserves entry reg device x :
  (∃ k d, reg !! k = Some d ∧ registered_for entry x d) →
  ∃ k d, register entry reg device !! k = Some d ∧ registered_for entry x d.
Proof.
  intros (k & d & Hk & Hid & Hce & Hmf).
  destruct (register_lookup entry reg device) as (k0 & d0 & Hcase & ->).
  destruct (decide (k0 = k)) as [->|Hne].
  - eexists k, _. rewrite lookup_insert_eq. split; [done|].
    destruct Hcase as [[Hk0 _]|[Hk0 _]]; [|congruence].
    assert (d0 = d) as -> by congruence.
    unfold registered_for. simpl. repeat split; set_solver.
  - exists k, d. rewrite lookup_insert_ne by done. by repeat split.
Qed.

Lemma register_all_preserves entry ds reg x :
  (∃ k d, reg !! k = Some d ∧ registered_for entry x d) →
  ∃ k d, foldl (register entry) reg ds !! k = Some d ∧ registered_for entry x d.
Proof.
  revert reg. induction ds as [|device ds IH]; intros reg Hgood; simpl; [done|].
  by apply IH, register_preserves.
Qed.

Lemma register_all_establishes entry ds reg device :
  device ∈ ds →
  ∃ k d, foldl (register entry) reg ds !! k = Some d ∧
         registered_for entry (CustomerDevice.id device) d.
Proof.
  revert reg. induction ds as [|device0 ds IH]; intros reg Hin;
    [by apply elem_of_nil in Hin|].
  apply elem_of_cons in Hin as [->|Hin]; simpl; [|by apply IH].
  apply register_all_preserves.
  destruct (register_establishes entry reg device0) as (k & d & Hk & Hgood & _).
  eauto.
Qed.

(** X13. After a setup that returns, every device of the refreshed device
    map has an entry in the registry that carries its identifier, is
    attached to this config entry and names Tuya as manufacturer. *)
Theorem setup_registers_every_device env entry h h' dm key device :
  async_setup_entry env entry h = (Ok true, h') →
  refreshed_device_map env = inr dm →
  dm !! key = Some device →
  ∃ k d, device_registry h' !! k = Some d ∧
         registered_for entry (CustomerDevice.id device) d.
Proof.
  intros Hok Henv Hdev.
  apply async_setup_entry_Ok in Hok as (tuya & hp & _ & Hsteps).
  apply setup_steps_Ok in Hsteps as (dm' & Henv' & _ & _ & ->).
  assert (dm' = dm) as -> by congruence.
  apply register_all_establishes.
  apply list_elem_of_fmap. exists (key, device). split; [done|].
  by apply elem_of_map_to_list.
Qed.

(** *** Entries of other integrations *)

Lemma register_all_foreign entry ds reg k d :
  reg !! k = Some d → device_ids d = ∅ →
  foldl (register entry) reg ds !! k = Some d.
Proof.
  revert reg. induction ds as [|device ds IH]; intros reg Hk Hforeign; simpl; [done|].
  apply IH; [|done].
  destruct (register_lookup entry reg device) as (k0 & d0 & Hcase & ->).
  rewrite lookup_insert_ne; [done|]. intros ->.
  destruct Hcase as [[Hk0 Hin]|[Hk0 _]]; [|congruence].
  assert (d0 = d) as -> by congruence.
  assert (CustomerDevice.id device ∈ device_ids d) as Hid; [|set_solver].
  unfold device_ids. apply elem_of_map. exists (DOMAIN, CustomerDevice.id device).
  split; [done|]. by apply elem_of_filter.
Qed.

Lemma foreign_not_stale dm d : device_ids d = ∅ → stale dm d = false.
Proof.
  intros Hforeign. apply stale_false. intros x Hin.
  assert (x ∈ device_ids d) as Hid; [|set_solver].
  unfold device_ids. apply elem_of_map. exists (DOMAIN, x).
  split; [done|]. by apply elem_of_filter.
Qed.

(** The registry after the setup steps, whatever they returned: as
    before, or pruned and filled from the refreshed device map. *)
Lemma setup_steps_registry env entry m hp :
  let r := setup_steps env entry m hp in
  device_registry r.2 = device_registry hp ∨
  ∃ dm, refreshed_device_map env = inr dm ∧
        device_registry r.2 =
          foldl (register entry)
            (filter (λ kd : nat * dr.DeviceEntry, stale dm kd.2 = false)
                    (device_registry hp))
            (map_to_list dm).*2.
Proof.
  simpl. remember (setup_steps env entry m hp) as r eqn:Er.
  unfold setup_steps in Er. rewrite bind_run, report_version_spec in Er.
  destruct (integration env) as [e0|mf]; [left; by subst|].
  destruct (sharing_sdk_of _ _) as [v|e1]; [|left; by subst].
  destruct (report_version_raises env); [left; by subst|].
  rewrite bind_run in Er.
  unfold sdk.update_device_cache at 1 in Er. rewrite bind_run in Er.
  unfold emit at 1, modify at 1 in Er.
  destruct (refreshed_device_map env) as [e2|dm]; [left; by subst|].
  unfold sdk.update_manager at 1, modify at 1 in Er.
  rewrite bind_run, cleanup_device_registry_spec in Er.
  rewrite bind_run in Er. unfold get at 1 in Er.
  rewrite bind_run, register_loop in Er.
  rewrite bind_run in Er.
  unfold host.async_forward_entry_setups, sdk.refresh_mq, sdk.update_manager in Er.
  run. rewrite !fn_lookup_insert in Er. simpl in Er.
  right. exists dm. split; [done|].
  destruct (forward_entry_setups_raises env); simpl in Er; [by subst|].
  destruct (refresh_mq_raises env); simpl in Er; by subst.
Qed.

(** X14. Whatever the setup returns or raises, a registry entry that
    carries no identifier of this domain is still there afterwards, under
    the same internal id and unchanged. *)
Theorem setup_leaves_foreign_entries env entry h k d :
  device_registry h !! k = Some d →
  device_ids d = ∅ →
  device_registry (async_setup_entry env entry h).2 !! k = Some d.
Proof.
  intros Hk Hforeign.
  destruct (async_setup_entry_reaches_steps env entry h)
    as [(e0 & hp & -> & Hreg & _)|(tuya & hp & pre & -> & _ & Hreg & _)].
  - simpl. by rewrite Hreg.
  - destruct (setup_steps_registry env entry (manager tuya) hp)
      as [->|(dm & _ & ->)]; rewrite Hreg; [done|].
    apply register_all_foreign; [|done].
    apply map_lookup_filter_Some. split; [done|]. simpl.
    by apply foreign_not_stale.
Qed.

(** *** Removal of an entry when the vendor fails, and what removal leaves alone *)

(** X15. A vendor failure during [async_remove_entry] aborts it with the
    session still stored.  When [mq.stop()] raises, nothing else has
    happened; when [unload] raises, the push channel (if any) was stopped
    and the device listener is no longer registered with the manager, but
    [hass.data] is as before. *)
Theorem remove_entry_vendor_failure env entry h ns tuya e :
  data h !! DOMAIN = Some ns →
  ns !! entry = Some tuya →
  let m := manager tuya in
  let r := async_remove_entry env entry h in
  (Manager.mq (managers h m) = Some () → mq_stop_raises env = Some e →
   r = (Raise e, log_events [LoggerDebug "remove entry id = %s"; MqStop m] h)) ∧
  (Manager.mq (managers h m) = None ∨ mq_stop_raises env = None →
   unload_raises env = Some e →
   r.1 = Raise e ∧
   data r.2 = data h ∧
   session_of r.2 entry = Some tuya ∧
   Manager.device_listeners (managers r.2 m) =
     Manager.device_listeners (managers h m) ∖ {[ listener tuya ]} ∧
   last (trace r.2) = Some (Unload m)).
Proof.
  intros Hns Htuya. simpl.
  unfold async_remove_entry, sdk.mq_stop, sdk.remove_device_listener,
    sdk.unload, sdk.update_manager, session_of, log_events.
  run. rewrite Hns. simpl. rewrite Htuya. simpl. split.
  - intros Hmq Hstop. rewrite Hmq. run. rewrite Hstop. simpl.
    by rewrite <- app_assoc.
  - intros Hcase Hunload.
    destruct (Manager.mq (managers h (manager tuya))) as [[]|] eqn:Hmq; run.
    + destruct Hcase as [?|Hstop]; [done|]. rewrite Hstop. run.
      rewrite Hunload. simpl. rewrite Hns. simpl. rewrite fn_lookup_insert. simpl.
      repeat split; try done. by rewrite last_snoc.
    + rewrite Hunload. simpl. rewrite Hns. simpl. rewrite fn_lookup_insert. simpl.
      repeat split; try done. by rewrite last_snoc.
Qed.

Lemma remove_entry_data env entry h :
  let r := async_remove_entry env entry h in
  device_registry r.2 = device_registry h ∧
  entries r.2 = entries h ∧
  next_manager r.2 = next_manager h ∧
  (data r.2 = data h ∨
   ∃ ns, data h !! DOMAIN = Some ns ∧
         data r.2 = if decide (delete entry ns = ∅)
                    then delete DOMAIN (data h)
                    else <[DOMAIN := delete entry ns]> (data h)).
Proof.
  simpl. remember (async_remove_entry env entry h) as r eqn:Er.
  unfold async_remove_entry, sdk.mq_stop, sdk.remove_device_listener,
    sdk.unload, sdk.update_manager in Er.
  run.
  destruct (data h !! DOMAIN) as [ns|] eqn:Hns; simpl in Er; [|subst; by auto].
  destruct (ns !! entry) as [tuya|] eqn:Htuya; simpl in Er; [|subst; by auto].
  destruct (Manager.mq (managers h (manager tuya))) as [[]|]; run;
    [destruct (mq_stop_raises env); run; [subst; by auto|]|];
    (destruct (unload_raises env); run; [subst; by auto|]);
    rewrite Hns in Er; simpl in Er; rewrite Htuya in Er; simpl in Er;
    rewrite lookup_insert_eq in Er; simpl in Er;
    (destruct (decide (delete entry ns = ∅)); simpl in Er; subst; simpl;
     repeat split; right; exists ns; (split; [done|]);
     rewrite ?decide_True, ?decide_False by done;
     by rewrite ?delete_insert_eq).
Qed.

(** X16. Whatever [async_remove_entry] returns or raises, it leaves the
    device registry and the data of every config entry as they are (the
    devices of a removed entry stay registered), and the session stored for
    any other entry id is the one stored before. *)
Theorem remove_entry_leaves_the_rest env entry h :
  let r := async_remove_entry env entry h in
  device_registry r.2 = device_registry h ∧
  entries r.2 = entries h ∧
  next_manager r.2 = next_manager h ∧
  ∀ other, other ≠ entry → session_of r.2 other = session_of h other.
Proof.
  simpl. destruct (remove_entry_data env entry h) as (Hreg & Hent & Hnm & Hdata).
  split; [done|]. split; [done|]. split; [done|].
  intros other Hne. unfold session_of.
  destruct Hdata as [->|(ns & Hns & ->)]; [done|]. rewrite Hns. simpl.
  destruct (decide (delete entry ns = ∅)) as [Hempty|_].
  - rewrite lookup_delete_eq. simpl.
    rewrite <- (lookup_delete_ne ns entry other) by done.
    by rewrite Hempty, lookup_empty.
  - rewrite lookup_insert_eq. simpl. by rewrite lookup_delete_ne.
Qed.

(** *** The registry invariant *)

(** X17. If no identifier is carried by two entries of the registry
    before [async_setup_entry], none is afterwards, whatever the setup
    returns or raises. *)
Theorem setup_preserves_unique_identifiers env entry h :
  unique_identifiers (device_registry h) →
  unique_identifiers (device_registry (async_setup_entry env entry h).2).
Proof. apply setup_keeps_unique_identifiers. Qed.

(** *** Device updates after the first setup *)

Lemma new_session_Ok_listener entry d h m hp :
  new_session entry d h = (Ok m, hp) →
  listeners hp (next_listener h) = {| dl_manager := next_manager h |}.
Proof.
  unfold new_session, sdk.Manager_init, DeviceListener_init,
    sdk.add_device_listener, sdk.update_manager, store_session.
  run.
  destruct (d !! CONF_USER_CODE); simpl; [|by inversion 1].
  destruct (d !! CONF_TERMINAL_ID); simpl; [|by inversion 1].
  destruct (d !! CONF_ENDPOINT); simpl; [|by inversion 1].
  destruct (d !! CONF_TOKEN_INFO); simpl; [|by inversion 1].
  destruct (data h !! DOMAIN) as [ns|]; simpl; [|by inversion 1].
  inversion 1; subst; simpl. apply fn_lookup_insert.
Qed.

(** X18. After the first setup of an entry has returned, the device
    listener of the stored session reads the refreshed device map of the
    stored manager: [update_device] for a device of that map logs and sends
    the device's signal, and for any other device raises [KeyError] and
    sends nothing. *)
Theorem first_setup_then_update_device env entry h h' dm device :
  session_of h entry = None →
  async_setup_entry env entry h = (Ok true, h') →
  refreshed_device_map env = inr dm →
  ∃ tuya,
    session_of h' entry = Some tuya ∧
    update_device (listener tuya) device h' =
      match dm !! CustomerDevice.id device with
      | Some _ =>
        (Ok (),
         log_events
           [LoggerDebug "Received update for device %s: %s";
            DispatcherSend
              (TUYA_HA_SIGNAL_UPDATE_ENTITY +:+ "_" +:+ CustomerDevice.id device) []] h')
      | None => (Raise (KeyError (CustomerDevice.id device)), h')
      end.
Proof.
  intros Hs Hok Henv.
  destruct (entries h entry !! CONF_APP_TYPE) as [v|] eqn:Hlegacy.
  { rewrite setup_with_legacy in Hok by (by rewrite Hlegacy). by inversion Hok. }
  rewrite (setup_without_session env entry h Hs Hlegacy) in Hok.
  destruct (new_session entry (entries h entry) (setdefault_domain h).2)
    as [[m|e0] hp] eqn:Hnew; [|by inversion Hok].
  pose proof (new_session_Ok_listener _ _ _ _ _ Hnew) as Hl.
  apply new_session_Ok in Hnew as [-> Hstored].
  pose proof (setup_steps_keep_sessions env entry
                (next_manager (setdefault_domain h).2) hp) as Hkept.
  rewrite Hok in Hkept. simpl in Hkept.
  apply setup_steps_Ok in Hok as (dm' & Henv' & Hdm & _).
  assert (dm' = dm) as -> by congruence.
  eexists. split; [by rewrite (session_of_kept _ _ _ Hkept)|]. simpl.
  destruct Hkept as (_ & _ & _ & Hls & _).
  unfold update_device, host.dispatcher_send, log_events. run.
  rewrite Hls, Hl. simpl. rewrite Hdm.
  destruct (dm !! CustomerDevice.id device); simpl; [|done].
  by rewrite <- app_assoc.
Qed.

(** *** Successive token refreshes *)

(** X19. A second [update_token] reads the data the first one wrote, the
    entry object being shared: after two refreshes the entry holds its
    original data with ["token_info"] set to the second blob, and neither
    refresh touches [hass.data], the device registry or the managers. *)
Theorem update_token_twice self (T1 T2 : pyval) h :
  let h2 := (update_token self T2 (update_token self T1 h).2).2 in
  entries h2 (tl_entry self) = <["token_info" := T2]> (entries h (tl_entry self)) ∧
  data h2 = data h ∧
  device_registry h2 = device_registry h ∧
  managers h2 = managers h ∧
  trace h2 = trace h ++
    [LoggerDebug "update token info : %s";
     UpdateEntry (tl_entry self) (<["token_info" := T1]> (entries h (tl_entry self)));
     LoggerDebug "update token info : %s";
     UpdateEntry (tl_entry self) (<["token_info" := T2]> (entries h (tl_entry self)))].
Proof.
  unfold update_token, host.async_update_entry. run.
  rewrite !fn_lookup_insert, insert_insert_eq.
  repeat split. by rewrite <- !app_assoc.
Qed.

End Properties.

(** ** The properties on the sample data *)

Ltac by_compute := apply (bool_decide_unpack _); vm_compute; exact I.

(** The example of the spec: the vendor knows ["a"] and ["b"], the
    registry knew ["a"] and ["c"]; after the setup it knows ["a"] and
    ["b"]. *)
Lemma setup_registry_matches_device_map_witness :
  @async_setup_entry sample.const sample.env "e1" sample.fresh_host
    = (Ok true, sample.active_host) ∧
  refreshed_device_map sample.env = inr sample.devices ∧
  keyed_by_id sample.devices ∧
  ∃ tuya,
    @session_of sample.const sample.active_host "e1" = Some tuya ∧
    Manager.device_map (managers sample.active_host (manager tuya)) = sample.devices ∧
    @registered_ids sample.const (device_registry sample.active_host) = {[ "a"; "b" ]}.
Proof.
  assert (@async_setup_entry sample.const sample.env "e1" sample.fresh_host
            = (Ok true, sample.active_host)) as Hok
    by (vm_compute; reflexivity).
  assert (keyed_by_id sample.devices) as Hkeyed
    by (unfold keyed_by_id; by_compute).
  split; [exact Hok|]. split; [reflexivity|]. split; [exact Hkeyed|].
  destruct (@setup_registry_matches_device_map sample.const sample.env "e1"
              sample.fresh_host sample.active_host sample.devices
              Hok eq_refl Hkeyed) as (tuya & Hs & Hdm & Hids).
  exists tuya. split; [exact Hs|]. split; [exact Hdm|].
  rewrite Hids. vm_compute. reflexivity.
Defined.

Lemma setup_with_legacy_marker_fails_witness :
  is_Some (entries sample.fresh_host "legacy" !! "tuya_app_type") ∧
  ∃ h',
    @async_setup_entry sample.const sample.env "legacy" sample.fresh_host
      = (Raise (ConfigEntryAuthFailed "Authentication failed. Please re-authenticate."), h') ∧
    @session_of sample.const h' "legacy" = None ∧
    next_manager h' = 0 ∧
    trace h' = [].
Proof.
  assert (is_Some (entries sample.fresh_host "legacy" !! "tuya_app_type")) as Hlegacy
    by by_compute.
  split; [exact Hlegacy|].
  destruct (@setup_with_legacy_marker_fails sample.const sample.env "legacy"
              sample.fresh_host Hlegacy)
    as (h' & Hrun & _ & Hs & Hm & _ & _ & Ht).
  exists h'. split; [exact Hrun|]. split; [|split; [exact Hm|exact Ht]].
  rewrite Hs. vm_compute. reflexivity.
Defined.

Lemma setup_again_reuses_session_witness :
  @session_of sample.const sample.active_host "e1"
    = Some {| manager := 0; listener := 0 |} ∧
  let h' := (@async_setup_entry sample.const sample.env "e1"
               (@calls sample.const "e1" [Deactivate sample.env] sample.active_host)).2 in
  @session_of sample.const h' "e1" = Some {| manager := 0; listener := 0 |} ∧
  next_manager h' = 1 ∧
  next_listener h' = 1.
Proof.
  assert (@session_of sample.const sample.active_host "e1"
            = Some {| manager := 0; listener := 0 |}) as Hs
    by (vm_compute; reflexivity).
  split; [exact Hs|].
  destruct (@setup_again_reuses_session sample.const "e1" sample.active_host
              {| manager := 0; listener := 0 |} [Deactivate sample.env] sample.env Hs)
    as (Hs' & _ & Hm & Hl & _).
  split; [exact Hs'|]. split; [exact Hm|exact Hl].
Defined.

(** C4, as the spec states it, fails: here the vendor rejects the version
    report, and the setup raises the vendor's exception instead of going
    on. *)
Lemma report_version_failure_not_swallowed :
  ¬ (∀ env entry h e,
       report_version_raises env = Some e →
       (∃ ev, ev ∈ events_since h (@async_setup_entry sample.const env entry h).2 ∧
              is_report_version ev = true) →
       (@async_setup_entry sample.const env entry h).1 ≠ Raise e).
Proof.
  intros Hclaim.
  apply (Hclaim sample.env_report_fails "e1" sample.fresh_host
           (ExternalError "report_version") eq_refl).
  - exists (ReportVersion 0 "2024.2.0" "1.0.0" "0.2.0"). split; [|reflexivity].
    apply list_elem_of_In. vm_compute. tauto.
  - vm_compute. reflexivity.
Qed.

Lemma report_version_failure_propagates_witness :
  report_version_raises sample.env_report_fails = Some (ExternalError "report_version") ∧
  let r := @async_setup_entry sample.const sample.env_report_fails "e1" sample.fresh_host in
  (∃ e', r.1 = Raise e') ∧
  Forall (λ ev, is_later_setup_step ev = false ∧ is_log ev = false)
         (events_since sample.fresh_host r.2) ∧
  device_registry r.2 = device_registry sample.fresh_host.
Proof.
  split; [reflexivity|].
  destruct (@report_version_failure_propagates sample.const sample.env_report_fails
              "e1" sample.fresh_host (ExternalError "report_version") eq_refl)
    as (Hfail & (_ & Hquiet) & Hreg).
  split; [exact Hfail|]. split; [exact Hquiet|exact Hreg].
Defined.

Lemma update_token_overwrites_token_info_only_witness :
  "user_code" ≠ "token_info" ∧
  let r := update_token {| tl_entry := "e1" |} (PDict [("access_token", PStr "new")])
             sample.active_host in
  entries r.2 "e1" !! "token_info" = Some (PDict [("access_token", PStr "new")]) ∧
  entries r.2 "e1" !! "user_code" = Some (PStr "u").
Proof.
  assert ("user_code" ≠ "token_info") as Hne by discriminate.
  split; [exact Hne|].
  destruct (update_token_overwrites_token_info_only {| tl_entry := "e1" |}
              (PDict [("access_token", PStr "new")]) sample.active_host)
    as (_ & _ & Hwritten & Htoken & Hframe & _).
  simpl. simpl in Hwritten, Htoken, Hframe.
  rewrite Hwritten. split; [exact Htoken|].
  rewrite (Hframe "user_code" Hne). vm_compute. reflexivity.
Defined.

Lemma remove_entry_teardown_order_witness :
  data sample.active_host !! "tuya" = Some {[ "e1" := {| manager := 0; listener := 0 |} ]} ∧
  Manager.mq (managers sample.active_host 0) = Some () ∧
  let r := @async_remove_entry sample.const sample.env "e1" sample.active_host in
  r.1 = Ok () ∧
  events_since sample.active_host r.2 =
    [LoggerDebug "remove entry id = %s"; MqStop 0; RemoveDeviceListener 0 0; Unload 0] ∧
  data r.2 = ∅.
Proof.
  assert (data sample.active_host !! "tuya"
            = Some {[ "e1" := {| manager := 0; listener := 0 |} ]}) as Hns
    by (vm_compute; reflexivity).
  split; [exact Hns|]. split; [vm_compute; reflexivity|].
  destruct (@remove_entry_teardown_order sample.const sample.env "e1"
              sample.active_host {[ "e1" := {| manager := 0; listener := 0 |} ]}
              {| manager := 0; listener := 0 |}
              Hns ltac:(vm_compute; reflexivity) eq_refl eq_refl)
    as (Hok & Htrace & Hdata & _).
  simpl. split; [exact Hok|]. split.
  - apply events_since_app. rewrite Htrace. reflexivity.
  - rewrite Hdata. vm_compute. reflexivity.
Defined.

Lemma listener_removal_idempotent_witness :
  unique_identifiers (device_registry sample.active_host) ∧
  (∀ k d, device_registry sample.active_host !! k = Some d →
          ("tuya", "zzz") ∉ dr.identifiers d) ∧
  device_registry (@async_remove_device sample.const 0 "zzz" sample.active_host).2
    = device_registry sample.active_host ∧
  let once := (@async_remove_device sample.const 0 "a" sample.active_host).2 in
  device_registry (@async_remove_device sample.const 0 "a" once).2 = device_registry once ∧
  dom (device_registry once) = {[ 1 ]}.
Proof.
  assert (unique_identifiers (device_registry sample.active_host)) as Hu by by_compute.
  assert (∀ k d, device_registry sample.active_host !! k = Some d →
                 ("tuya", "zzz") ∉ dr.identifiers d) as Hno.
  { change (map_Forall (λ (_ : nat) d, ("tuya", "zzz") ∉ dr.identifiers d)
              (device_registry sample.active_host)).
    by_compute. }
  split; [exact Hu|]. split; [exact Hno|].
  split.
  - destruct (@listener_removal_idempotent sample.const 0 "zzz" sample.active_host)
      as (_ & Hnoop & _).
    exact (Hnoop Hno).
  - destruct (@listener_removal_idempotent sample.const 0 "a" sample.active_host)
      as (_ & _ & Htwice).
    simpl. split; [exact (Htwice Hu)|]. vm_compute. reflexivity.
Defined.

Lemma unload_keeps_session_witness :
  @session_of sample.const sample.active_host "e1"
    = Some {| manager := 0; listener := 0 |} ∧
  let r := @async_unload_entry sample.const sample.env "e1" sample.active_host in
  r.1 = Ok true ∧
  data r.2 = data sample.active_host ∧
  let h' := (@async_setup_entry sample.const sample.env "e1" r.2).2 in
  @session_of sample.const h' "e1" = Some {| manager := 0; listener := 0 |} ∧
  next_manager h' = 1.
Proof.
  assert (@session_of sample.const sample.active_host "e1"
            = Some {| manager := 0; listener := 0 |}) as Hs
    by (vm_compute; reflexivity).
  split; [exact Hs|].
  destruct (@unload_keeps_session sample.const sample.env "e1" sample.active_host)
    as (Hret & Hstate & _ & Hreload).
  cbv zeta. split; [exact Hret|]. split; [rewrite Hstate; reflexivity|].
  destruct (Hreload sample.env {| manager := 0; listener := 0 |} Hs) as (Hs' & Hm & _).
  split; [exact Hs'|exact Hm].
Defined.

Lemma update_device_requires_known_device_witness :
  is_Some (Manager.device_map
             (managers sample.active_host (dl_manager (listeners sample.active_host 0)))
           !! "a") ∧
  Manager.device_map
    (managers sample.active_host (dl_manager (listeners sample.active_host 0)))
    !! "c" = None ∧
  (@update_device sample.const 0 (sample.device "a") sample.active_host).1 = Ok () ∧
  @update_device sample.const 0 (sample.device "c") sample.active_host
    = (Raise (KeyError "c"), sample.active_host).
Proof.
  assert (is_Some (Manager.device_map
            (managers sample.active_host (dl_manager (listeners sample.active_host 0)))
            !! "a")) as Hin by by_compute.
  assert (Manager.device_map
            (managers sample.active_host (dl_manager (listeners sample.active_host 0)))
            !! "c" = None) as Hout by (vm_compute; reflexivity).
  split; [exact Hin|]. split; [exact Hout|].
  destruct (@update_device_requires_known_device sample.const 0 (sample.device "a")
              sample.active_host) as (Hknown & _).
  destruct (@update_device_requires_known_device sample.const 0 (sample.device "c")
              sample.active_host) as (_ & Hunknown).
  split; [by rewrite (Hknown Hin)|exact (Hunknown Hout)].
Defined.

Lemma remove_entry_requires_session_witness :
  @session_of sample.const sample.fresh_host "e1" = None ∧
  @session_of sample.const sample.active_host "e2" = None ∧
  @async_remove_entry sample.const sample.env "e1" sample.fresh_host
    = (Raise (KeyError "tuya"),
       set_trace [LoggerDebug "remove entry id = %s"] sample.fresh_host) ∧
  (@async_remove_entry sample.const sample.env "e2" sample.active_host).1
    = Raise (KeyError "e2").
Proof.
  assert (@session_of sample.const sample.fresh_host "e1" = None) as H1
    by (vm_compute; reflexivity).
  assert (@session_of sample.const sample.active_host "e2" = None) as H2
    by (vm_compute; reflexivity).
  split; [exact H1|]. split; [exact H2|]. split.
  - exact (@remove_entry_requires_session sample.const sample.env "e1"
             sample.fresh_host H1).
  - rewrite (@remove_entry_requires_session sample.const sample.env "e2"
               sample.active_host H2).
    vm_compute. reflexivity.
Defined.

(** ** The further properties on the sample data *)

Lemma cleanup_removes_exactly_stale_entries_witness :
  device_registry sample_more.stale_host !! 0 = Some (sample.registered "a") ∧
  device_registry (@cleanup_device_registry sample.const 0 sample_more.stale_host).2 !! 0
    = Some (sample.registered "a") ∧
  device_registry (@cleanup_device_registry sample.const 0 sample_more.stale_host).2 !! 1
    = None.
Proof.
  assert (device_registry sample_more.stale_host !! 0 = Some (sample.registered "a"))
    as Hk by (vm_compute; reflexivity).
  split; [exact Hk|].
  destruct (@cleanup_removes_exactly_stale_entries sample.const 0 sample_more.stale_host)
    as (_ & _ & Hiff).
  split.
  - apply Hiff. split; [exact Hk|]. intros x Hin.
    cbn in Hin. apply elem_of_singleton in Hin. inversion Hin; subst. by_compute.
  - vm_compute. reflexivity.
Defined.

Lemma cleanup_idempotent_witness :
  @registered_ids sample.const (device_registry sample.active_host)
    ⊆ dom (Manager.device_map (managers sample.active_host 0)) ∧
  (@cleanup_device_registry sample.const 0 sample.active_host).2 = sample.active_host ∧
  let once := (@cleanup_device_registry sample.const 0 sample_more.stale_host).2 in
  @cleanup_device_registry sample.const 0 once = (Ok (), once).
Proof.
  assert (@registered_ids sample.const (device_registry sample.active_host)
            ⊆ dom (Manager.device_map (managers sample.active_host 0))) as Hsub
    by by_compute.
  split; [exact Hsub|].
  destruct (@cleanup_idempotent sample.const 0 sample.active_host) as (_ & Hnoop).
  destruct (@cleanup_idempotent sample.const 0 sample_more.stale_host) as (Htwice & _).
  split; [exact (Hnoop Hsub)|exact Htwice].
Defined.

Lemma listener_removal_removes_entry_witness :
  ¬ @unregistered sample.const (device_registry sample.active_host) "a" ∧
  ∃ k d,
    device_registry sample.active_host !! k = Some d ∧
    ("tuya", "a") ∈ dr.identifiers d ∧
    device_registry (@async_remove_device sample.const 0 "a" sample.active_host).2
      = delete k (device_registry sample.active_host).
Proof.
  assert (¬ @unregistered sample.const (device_registry sample.active_host) "a") as Hsome
    by (unfold unregistered; by_compute).
  split; [exact Hsome|].
  destruct (@listener_removal_removes_entry sample.const 0 "a" sample.active_host Hsome)
    as (k & d & Hk & Hin & Hreg & _).
  exists k, d. split; [exact Hk|]. split; [exact Hin|exact Hreg].
Defined.

Lemma add_device_signals_then_removes_witness :
  jobs sample.active_host = [] ∧
  unique_identifiers (device_registry sample.active_host) ∧
  let h1 := (@add_device sample.const 0 (sample.device "a") sample.active_host).2 in
  device_registry h1 = device_registry sample.active_host ∧
  @unregistered sample.const (device_registry (@run_next_job sample.const h1).2) "a".
Proof.
  assert (jobs sample.active_host = []) as Hjobs by (vm_compute; reflexivity).
  assert (unique_identifiers (device_registry sample.active_host)) as Hu by by_compute.
  split; [exact Hjobs|]. split; [exact Hu|].
  destruct (@add_device_signals_then_removes sample.const 0 (sample.device "a")
              sample.active_host) as (_ & Hreg & _ & _ & Hlater).
  destruct (Hlater Hjobs) as (_ & _ & _ & _ & Hgone).
  split; [exact Hreg|exact (Hgone Hu)].
Defined.

Lemma remove_device_is_deferred_witness :
  jobs sample.active_host = [] ∧
  unique_identifiers (device_registry sample.active_host) ∧
  let h1 := (remove_device 0 "b" sample.active_host).2 in
  device_registry h1 = device_registry sample.active_host ∧
  jobs (@run_next_job sample.const h1).2 = [] ∧
  @unregistered sample.const (device_registry (@run_next_job sample.const h1).2) "b".
Proof.
  assert (jobs sample.active_host = []) as Hjobs by (vm_compute; reflexivity).
  assert (unique_identifiers (device_registry sample.active_host)) as Hu by by_compute.
  split; [exact Hjobs|]. split; [exact Hu|].
  destruct (@remove_device_is_deferred sample.const 0 "b" sample.active_host)
    as (_ & Hreg & _ & Hlater).
  destruct (Hlater Hjobs) as (Hempty & Hgone & _).
  split; [exact Hreg|]. split; [exact Hempty|exact (Hgone Hu)].
Defined.

Lemma report_version_unpinned_sdk_raises_witness :
  "tuya-device-sharing-sdk>=0.2.0" ∈ ["requests"; "tuya-device-sharing-sdk>=0.2.0"] ∧
  str_contains "device-sharing-sdk" "tuya-device-sharing-sdk>=0.2.0" = true ∧
  str_contains "==" "tuya-device-sharing-sdk>=0.2.0" = false ∧
  @report_version sample.const (sample_more.with_manifest sample_more.manifest_unpinned)
    0 sample.active_host
    = (Raise IndexError, log_events [GetIntegration "tuya"] sample.active_host).
Proof.
  assert ("tuya-device-sharing-sdk>=0.2.0"
            ∈ ["requests"; "tuya-device-sharing-sdk>=0.2.0"]) as Hin by by_compute.
  split; [exact Hin|]. split; [reflexivity|]. split; [reflexivity|].
  exact (@report_version_unpinned_sdk_raises sample.const
           (sample_more.with_manifest sample_more.manifest_unpinned) 0 sample.active_host
           sample_more.manifest_unpinned _ _ eq_refl eq_refl Hin eq_refl eq_refl).
Defined.

Lemma report_version_sends_pinned_sdk_witness :
  requirements sample_more.manifest_pinned
    = Some (["requests"] ++ ("tuya-device-sharing-sdk" +:+ "==" +:+ "0.2.0") :: ["paho-mqtt"]) ∧
  @report_version sample.const (sample_more.with_manifest sample_more.manifest_pinned)
    0 sample.active_host
    = (Ok (),
       log_events [GetIntegration "tuya"; ReportVersion 0 "2024.2.0" "1.0.0" "0.2.0"]
         sample.active_host).
Proof.
  assert (requirements sample_more.manifest_pinned
            = Some (["requests"] ++
                    ("tuya-device-sharing-sdk" +:+ "==" +:+ "0.2.0") :: ["paho-mqtt"]))
    as Hreq by (vm_compute; reflexivity).
  split; [exact Hreq|].
  exact (@report_version_sends_pinned_sdk sample.const
           (sample_more.with_manifest sample_more.manifest_pinned) 0 sample.active_host
           sample_more.manifest_pinned ["requests"] ["paho-mqtt"]
           "tuya-device-sharing-sdk" "0.2.0" eq_refl Hreq
           ltac:(by_compute) ltac:(by_compute) eq_refl eq_refl eq_refl).
Defined.

Lemma report_version_without_sdk_requirement_witness :
  requirements sample_more.manifest_bare = None ∧
  @report_version sample.const (sample_more.with_manifest sample_more.manifest_bare)
    0 sample.active_host
    = (Ok (),
       log_events [GetIntegration "tuya"; ReportVersion 0 "2024.2.0" "unknown" ""]
         sample.active_host).
Proof.
  split; [reflexivity|].
  exact (@report_version_without_sdk_requirement sample.const
           (sample_more.with_manifest sample_more.manifest_bare) 0 sample.active_host
           sample_more.manifest_bare eq_refl I).
Defined.

Lemma setup_missing_credential_witness :
  @session_of sample.const sample_more.bare_host "e1" = None ∧
  entries sample_more.bare_host "e1" !! "tuya_app_type" = None ∧
  (@async_setup_entry sample.const sample.env "e1" sample_more.bare_host).1
    = Raise (KeyError "terminal_id") ∧
  next_manager (@async_setup_entry sample.const sample.env "e1" sample_more.bare_host).2 = 0.
Proof.
  assert (@session_of sample.const sample_more.bare_host "e1" = None) as Hs
    by (vm_compute; reflexivity).
  assert (entries sample_more.bare_host "e1" !! "tuya_app_type" = None) as Hlegacy
    by (vm_compute; reflexivity).
  split; [exact Hs|]. split; [exact Hlegacy|].
  destruct (@setup_missing_credential sample.const sample.env "e1" sample_more.bare_host
              1 "terminal_id" Hs Hlegacy ltac:(vm_compute; reflexivity))
    as (Hrun & _ & Hm & _).
  rewrite Hrun. split; [reflexivity|exact Hm].
Defined.

Lemma setup_creates_session_witness :
  @session_of sample.const sample.fresh_host "e1" = None ∧
  entries sample.fresh_host "e1" !! "tuya_app_type" = None ∧
  entries sample.fresh_host "e1" !! "user_code" = Some (PStr "u") ∧
  let h' := (@async_setup_entry sample.const sample_more.env_cache_fails "e1"
               sample.fresh_host).2 in
  @session_of sample.const h' "e1" = Some {| manager := 0; listener := 0 |} ∧
  Manager.user_code (managers h' 0) = PStr "u" ∧
  Manager.token_listener (managers h' 0) = {| tl_entry := "e1" |} ∧
  Manager.device_listeners (managers h' 0) = {[ 0 ]} ∧
  dl_manager (listeners h' 0) = 0.
Proof.
  assert (@session_of sample.const sample.fresh_host "e1" = None) as Hs
    by (vm_compute; reflexivity).
  assert (entries sample.fresh_host "e1" !! "tuya_app_type" = None) as Hlegacy
    by (vm_compute; reflexivity).
  assert (entries sample.fresh_host "e1" !! "user_code" = Some (PStr "u")) as Huc
    by (vm_compute; reflexivity).
  split; [exact Hs|]. split; [exact Hlegacy|]. split; [exact Huc|].
  destruct (@setup_creates_session sample.const sample_more.env_cache_fails "e1"
              sample.fresh_host (PStr "u") (PStr "t") (PStr "https://example.invalid")
              (PDict [("access_token", PStr "old")])
              Hs Hlegacy Huc ltac:(vm_compute; reflexivity)
              ltac:(vm_compute; reflexivity) ltac:(vm_compute; reflexivity))
    as (Hstored & _ & _ & _ & Hcode & _ & _ & _ & Htl & Hdl & Hback & _).
  cbv zeta. split; [exact Hstored|]. split; [exact Hcode|].
  split; [exact Htl|]. split; [exact Hdl|exact Hback].
Defined.

Lemma setup_success_calls_witness :
  @async_setup_entry sample.const sample.env "e1" sample.active_host
    = (Ok true, (@async_setup_entry sample.const sample.env "e1" sample.active_host).2) ∧
  is_Some (@session_of sample.const sample.active_host "e1") ∧
  ∃ tuya mf v,
    Manager.mq (managers (@async_setup_entry sample.const sample.env "e1"
                            sample.active_host).2 (manager tuya)) = Some () ∧
    events_since sample.active_host
      (@async_setup_entry sample.const sample.env "e1" sample.active_host).2 =
      [GetIntegration "tuya";
       ReportVersion (manager tuya) "2024.2.0" (default "unknown" (version mf)) v;
       UpdateDeviceCache (manager tuya);
       ForwardEntrySetups "e1" ["light"; "switch"];
       RefreshMq (manager tuya)].
Proof.
  assert (@async_setup_entry sample.const sample.env "e1" sample.active_host
            = (Ok true, (@async_setup_entry sample.const sample.env "e1"
                           sample.active_host).2)) as Hok
    by (vm_compute; reflexivity).
  assert (is_Some (@session_of sample.const sample.active_host "e1")) as Hs
    by by_compute.
  split; [exact Hok|]. split; [exact Hs|].
  destruct (@setup_success_calls sample.const sample.env "e1" sample.active_host
              true _ Hok)
    as (_ & tuya & mf & v & pre & _ & Hmq & _ & Hevs & _ & Hnil).
  exists tuya, mf, v. split; [exact Hmq|].
  rewrite Hevs, (Hnil Hs). reflexivity.
Defined.

Lemma device_cache_failure_propagates_witness :
  refreshed_device_map sample_more.env_cache_fails
    = inl (ExternalError "update_device_cache") ∧
  let r := @async_setup_entry sample.const sample_more.env_cache_fails "e1"
             sample.fresh_host in
  (∃ e', r.1 = Raise e') ∧
  device_registry r.2 = device_registry sample.fresh_host ∧
  (UpdateDeviceCache 0 ∈ events_since sample.fresh_host r.2 →
   r.1 = Raise (ExternalError "update_device_cache") ∧
   ∃ tuya, @session_of sample.const r.2 "e1" = Some tuya ∧ manager tuya = 0).
Proof.
  split; [reflexivity|].
  destruct (@device_cache_failure_propagates sample.const sample_more.env_cache_fails
              "e1" sample.fresh_host (ExternalError "update_device_cache") eq_refl)
    as (Hfail & Hreg & _ & Hsession).
  cbv zeta. split; [exact Hfail|]. split; [exact Hreg|exact (Hsession 0)].
Defined.

Lemma setup_registers_every_device_witness :
  @async_setup_entry sample.const sample.env "e1" sample.fresh_host
    = (Ok true, sample.active_host) ∧
  sample.devices !! "b" = Some (sample.device "b") ∧
  ∃ k d, device_registry sample.active_host !! k = Some d ∧
         @registered_for sample.const "e1" "b" d.
Proof.
  assert (@async_setup_entry sample.const sample.env "e1" sample.fresh_host
            = (Ok true, sample.active_host)) as Hok
    by (vm_compute; reflexivity).
  assert (sample.devices !! "b" = Some (sample.device "b")) as Hb
    by (vm_compute; reflexivity).
  split; [exact Hok|]. split; [exact Hb|].
  exact (@setup_registers_every_device sample.const sample.env "e1" sample.fresh_host
           sample.active_host sample.devices "b" (sample.device "b") Hok eq_refl Hb).
Defined.

Lemma setup_leaves_foreign_entries_witness :
  device_registry sample_more.mixed_host !! 7 = Some sample_more.hue_bridge ∧
  @device_ids sample.const sample_more.hue_bridge = ∅ ∧
  device_registry (@async_setup_entry sample.const sample.env "e1"
                     sample_more.mixed_host).2 !! 7
    = Some sample_more.hue_bridge.
Proof.
  assert (device_registry sample_more.mixed_host !! 7 = Some sample_more.hue_bridge)
    as Hk by (vm_compute; reflexivity).
  assert (@device_ids sample.const sample_more.hue_bridge = ∅) as Hforeign
    by (vm_compute; reflexivity).
  split; [exact Hk|]. split; [exact Hforeign|].
  exact (@setup_leaves_foreign_entries sample.const sample.env "e1"
           sample_more.mixed_host 7 sample_more.hue_bridge Hk Hforeign).
Defined.

Lemma remove_entry_vendor_failure_witness :
  data sample.active_host !! "tuya" = Some {[ "e1" := {| manager := 0; listener := 0 |} ]} ∧
  unload_raises sample_more.env_unload_fails = Some (ExternalError "unload") ∧
  let r := @async_remove_entry sample.const sample_more.env_unload_fails "e1"
             sample.active_host in
  r.1 = Raise (ExternalError "unload") ∧
  @session_of sample.const r.2 "e1" = Some {| manager := 0; listener := 0 |} ∧
  Manager.device_listeners (managers r.2 0) = ∅.
Proof.
  assert (data sample.active_host !! "tuya"
            = Some {[ "e1" := {| manager := 0; listener := 0 |} ]}) as Hns
    by (vm_compute; reflexivity).
  split; [exact Hns|]. split; [reflexivity|].
  destruct (@remove_entry_vendor_failure sample.const sample_more.env_unload_fails "e1"
              sample.active_host {[ "e1" := {| manager := 0; listener := 0 |} ]}
              {| manager := 0; listener := 0 |} (ExternalError "unload")
              Hns ltac:(vm_compute; reflexivity))
    as (_ & Hunload).
  destruct (Hunload (or_intror eq_refl) eq_refl) as (Hfail & _ & Hstored & Hls & _).
  cbv zeta. split; [exact Hfail|]. split; [exact Hstored|].
  cbn [manager listener] in Hls. rewrite Hls. vm_compute. reflexivity.
Defined.

Lemma remove_entry_leaves_the_rest_witness :
  "e2" ≠ "e1" ∧
  let r := @async_remove_entry sample.const sample.env "e1" sample.active_host in
  device_registry r.2 = device_registry sample.active_host ∧
  @session_of sample.const r.2 "e2" = @session_of sample.const sample.active_host "e2".
Proof.
  assert ("e2" ≠ "e1") as Hne by discriminate.
  split; [exact Hne|].
  destruct (@remove_entry_leaves_the_rest sample.const sample.env "e1" sample.active_host)
    as (Hreg & _ & _ & Hother).
  cbv zeta. split; [exact Hreg|exact (Hother "e2" Hne)].
Defined.

Lemma setup_preserves_unique_identifiers_witness :
  unique_identifiers (device_registry sample.fresh_host) ∧
  unique_identifiers
    (device_registry (@async_setup_entry sample.const sample.env "e1"
                        sample.fresh_host).2).
Proof.
  assert (unique_identifiers (device_registry sample.fresh_host)) as Hu by by_compute.
  split; [exact Hu|].
  exact (@setup_preserves_unique_identifiers sample.const sample.env "e1"
           sample.fresh_host Hu).
Defined.

Lemma first_setup_then_update_device_witness :
  @session_of sample.const sample.fresh_host "e1" = None ∧
  @async_setup_entry sample.const sample.env "e1" sample.fresh_host
    = (Ok true, sample.active_host) ∧
  ∃ tuya,
    @session_of sample.const sample.active_host "e1" = Some tuya ∧
    (@update_device sample.const (listener tuya) (sample.device "a") sample.active_host).1
      = Ok () ∧
    @update_device sample.const (listener tuya) (sample.device "c") sample.active_host
      = (Raise (KeyError "c"), sample.active_host).
Proof.
  assert (@session_of sample.const sample.fresh_host "e1" = None) as Hs
    by (vm_compute; reflexivity).
  assert (@async_setup_entry sample.const sample.env "e1" sample.fresh_host
            = (Ok true, sample.active_host)) as Hok
    by (vm_compute; reflexivity).
  split; [exact Hs|]. split; [exact Hok|].
  destruct (@first_setup_then_update_device sample.const sample.env "e1"
              sample.fresh_host sample.active_host sample.devices (sample.device "a")
              Hs Hok eq_refl) as (tuya & Hstored & Ha).
  destruct (@first_setup_then_update_device sample.const sample.env "e1"
              sample.fresh_host sample.active_host sample.devices (sample.device "c")
              Hs Hok eq_refl) as (tuya' & Hstored' & Hc).
  assert (tuya' = tuya) as -> by congruence.
  exists tuya. split; [exact Hstored|]. split.
  - rewrite Ha. vm_compute. reflexivity.
  - rewrite Hc. vm_compute. reflexivity.
Defined.
